(** * txtai Textractor: the HTML to Markdown extractor

    A shallow embedding of [txtai/pipeline/data/textractor.py], class
    [Extract], and the properties of its conversion pass.

    Python strings are modelled as [string], every [ascii] standing for
    the code point of the same number (0..255).  The parsed document is
    the tree that BeautifulSoup builds: [Tag] elements and
    [NavigableString] leaves.  Comments, doctypes and the other special
    string classes of the parser are not part of the model. *)

From Stdlib Require Import Bool Arith Lia List Ascii String.
From Stdlib Require Import Numbers.DecimalString.
Import ListNotations.

Open Scope list_scope.
Open Scope string_scope.

(** ** Python string operations *)

Module Py.

Definition chr (n : nat) : string := String (ascii_of_nat n) "".

(** The characters the source writes as escapes. *)
Definition LF : string := chr 10.     (* "\n" *)
Definition FF : string := chr 12.     (* "\f", the section break *)
Definition NBSP : string := chr 160.  (* "\xa0" *)

(** [str.isspace] on one character, for code points below 256. *)
Definition isspace (c : ascii) : bool :=
  let n := nat_of_ascii c in
  ((9 <=? n)%nat && (n <=? 13)%nat) || ((28 <=? n)%nat && (n <=? 32)%nat)
  || (n =? 133)%nat || (n =? 160)%nat.

(** Truth value of a string: non-empty. *)
Definition truthy (s : string) : bool :=
  match s with "" => false | _ => true end.

Fixpoint lstrip (s : string) : string :=
  match s with
  | String c r => if isspace c then lstrip r else s
  | "" => ""
  end.

Fixpoint rstrip (s : string) : string :=
  match s with
  | String c r =>
      match rstrip r with
      | "" => if isspace c then "" else String c ""
      | r' => String c r'
      end
  | "" => ""
  end.

Definition strip (s : string) : string := rstrip (lstrip s).

(** ["sep".join(l)] *)
Definition join (sep : string) (l : list string) : string :=
  String.concat sep l.

(** [s.split("\n")]: always at least one piece. *)
Fixpoint split_lines (s : string) : list string :=
  match s with
  | "" => [""]
  | String c r =>
      if Ascii.eqb c (ascii_of_nat 10) then "" :: split_lines r
      else match split_lines r with
           | l :: ls => String c l :: ls
           | [] => [String c ""]
           end
  end.

(** [s * n] *)
Fixpoint repeat (s : string) (n : nat) : string :=
  match n with
  | 0 => ""
  | S k => s ++ repeat s k
  end.

(** [text.replace("\xa0\n", "\n\n")], scanning left to right. *)
Fixpoint replace_nbsp_lf (s : string) : string :=
  match s with
  | String a t =>
      match t with
      | String b r =>
          if Ascii.eqb a (ascii_of_nat 160) && Ascii.eqb b (ascii_of_nat 10)
          then LF ++ LF ++ replace_nbsp_lf r
          else String a (replace_nbsp_lf t)
      | "" => s
      end
  | "" => ""
  end.

(** [str(n)] for a non-negative integer. *)
Definition str_of_nat (n : nat) : string :=
  NilEmpty.string_of_uint (Nat.to_uint n).

(** [str(x)] of an optional string: [None] prints as "None". *)
Definition str_of_option (o : option string) : string :=
  match o with Some s => s | None => "None" end.

Definition startswith (p s : string) : bool := String.prefix p s.

Fixpoint endswith (p s : string) : bool :=
  String.eqb p s ||
  match s with
  | String _ r => endswith p r
  | "" => false
  end.

(** [x in (a, b, ...)] for strings. *)
Definition mem (x : string) (l : list string) : bool :=
  existsb (String.eqb x) l.

(** [int(c)] for one character; Python raises on anything but a digit. *)
Definition int_of_char (c : ascii) : option nat :=
  let n := nat_of_ascii c in
  if (48 <=? n)%nat && (n <=? 57)%nat then Some (n - 48) else None.

(** [re.search(r"^#+ ", line)] *)
Fixpoint hashes_then_space (s : string) : bool :=
  match s with
  | String c r =>
      if Ascii.eqb c "#" then
        match r with
        | String d _ => Ascii.eqb d " " || hashes_then_space r
        | "" => false
        end
      else false
  | "" => false
  end.

End Py.

(** ** The parsed tree *)

(** A node of the tree ([PageElement] is the parser's name for it).
    [class] is what [node.get("class")] returns: the parser stores this
    attribute as a list of tokens.  [attrs] holds
    the single-valued attributes that the extractor reads ([href],
    [name], [content]). *)
#[warnings="-register-all"]
Inductive PageElement : Type :=
| NavigableString (s : string)
| Tag (name : string) (class : option (list string))
      (attrs : list (string * string)) (contents : list PageElement).

(** [node.name]: [None] for a string. *)
Definition name (n : PageElement) : option string :=
  match n with
  | NavigableString _ => None
  | Tag nm _ _ _ => Some nm
  end.

(** Truth value of [node.name]. *)
Definition named (n : PageElement) : bool :=
  match n with
  | NavigableString _ => false
  | Tag nm _ _ _ => Py.truthy nm
  end.

(** [node.name in (...)] *)
Definition name_in (n : PageElement) (l : list string) : bool :=
  match n with
  | NavigableString _ => false
  | Tag nm _ _ _ => Py.mem nm l
  end.

Definition contents (n : PageElement) : list PageElement :=
  match n with
  | NavigableString _ => []
  | Tag _ _ _ cs => cs
  end.

(** [node.get("class")] *)
Definition get_class (n : PageElement) : option (list string) :=
  match n with
  | NavigableString _ => None
  | Tag _ c _ _ => c
  end.

Fixpoint lookup (k : string) (d : list (string * string)) : option string :=
  match d with
  | [] => None
  | (k', v) :: r => if String.eqb k k' then Some v else lookup k r
  end.

(** [node.get(key)] for a single-valued attribute. *)
Definition get (n : PageElement) (k : string) : option string :=
  match n with
  | NavigableString _ => None
  | Tag _ _ a _ => lookup k a
  end.

Definition isinstance_NavigableString (n : PageElement) : bool :=
  match n with
  | NavigableString _ => true
  | Tag _ _ _ _ => false
  end.

(** [node.text]: the strings below the node, in document order. *)
Fixpoint get_text (n : PageElement) : string :=
  match n with
  | NavigableString s => s
  | Tag _ _ _ cs => String.concat "" (map get_text cs)
  end.

Fixpoint height (n : PageElement) : nat :=
  match n with
  | NavigableString _ => 0
  | Tag _ _ _ cs => S (fold_right (fun c h => Nat.max (height c) h) 0 cs)
  end.

(** The parent chain of a node: the name of [node.parent], then the names
    further up, ending in the document object. *)
Definition parents : Type := (string * list string)%type.

(** The parent chain of the children of a tag [nm] whose own chain is [up]. *)
Definition below (nm : string) (up : parents) : parents :=
  (nm, fst up :: snd up).

(** The chain of the children of [node], whose own chain is [up]. *)
Definition inside (node : PageElement) (up : parents) : parents :=
  below (match name node with Some nm => nm | None => "" end) up.

(** A node and everything below it, in document order, each with its
    parent chain. *)
Fixpoint subtree (up : parents) (n : PageElement)
  : list (parents * PageElement) :=
  (up, n) ::
  match n with
  | NavigableString _ => []
  | Tag nm _ _ cs => flat_map (subtree (below nm up)) cs
  end.

Definition descendants (up : parents) (n : PageElement)
  : list (parents * PageElement) :=
  match n with
  | NavigableString _ => []
  | Tag nm _ _ cs => flat_map (subtree (below nm up)) cs
  end.

(** [node.find_all(f)]: the tags below [node] that [f] accepts. *)
Definition find_all (f : PageElement -> bool) (up : parents) (n : PageElement)
  : list (parents * PageElement) :=
  filter (fun d => negb (isinstance_NavigableString (snd d)) && f (snd d))
         (descendants up n).

(** The same over a list of siblings whose parent chain is [up]. *)
Definition find_all_in (f : PageElement -> bool) (up : parents)
           (cs : list PageElement)
  : list (parents * PageElement) :=
  filter (fun d => negb (isinstance_NavigableString (snd d)) && f (snd d))
         (flat_map (subtree up) cs).

(** [node.find(f)]: the first match of [find_all], if any. *)
Definition find (f : PageElement -> bool) (up : parents) (n : PageElement)
  : option (parents * PageElement) :=
  hd_error (find_all f up n).

(** The document object: its children have the chain [("[document]", [])]. *)
Definition BeautifulSoup : Type := list PageElement.

Definition root : parents := ("[document]", []).

Definition soup_find_all (f : PageElement -> bool) (soup : BeautifulSoup)
  : list (parents * PageElement) :=
  find_all_in f root soup.

Definition soup_find (f : PageElement -> bool) (soup : BeautifulSoup)
  : option (parents * PageElement) :=
  hd_error (soup_find_all f soup).

(** [for script in soup.find_all(["script", "style"]): script.decompose()]:
    every script and style tag is cut out of the tree. *)
Fixpoint decompose (n : PageElement) : list PageElement :=
  if name_in n ["script"; "style"] then []
  else match n with
       | NavigableString s => [NavigableString s]
       | Tag nm c a cs => [Tag nm c a (flat_map decompose cs)]
       end.

Definition decompose_all (soup : BeautifulSoup) : BeautifulSoup :=
  flat_map decompose soup.

(** [enumerate(l)] *)
Definition enumerate {A : Type} (l : list A) : list (nat * A) :=
  combine (seq 0 (List.length l)) l.

(** ** Exceptions *)

Inductive exn : Type :=
| KeyError (key : string).

Inductive result (A : Type) : Type :=
| Ok (a : A)
| Raise (e : exn).

Arguments Ok {A} a.
Arguments Raise {A} e.

(** ** class Extract *)

Record Extract : Type := __init__ {
  paragraphs : bool;
  sections : bool
}.

Section Methods.

Variable self : Extract.

Import Py.

Definition isheader (node : PageElement) : bool :=
  name_in node ["h1"; "h2"; "h3"; "h4"; "h5"; "h6"].

(** [while parent: ... parent = parent.parent] followed by
    [link and node.parent.name not in ("th", "td")].  A tag is always
    true; a string is true when it is not empty. *)
Definition islink (up : parents) (node : PageElement) : bool :=
  let above := existsb (String.eqb "a") (fst up :: snd up) in
  let link :=
    match node with
    | NavigableString s => truthy s && above
    | Tag nm _ _ _ => String.eqb nm "a" || above
    end in
  link && negb (mem (fst up) ["th"; "td"]).

Definition children (node : PageElement) : option (list PageElement) :=
  if named node && negb (Nat.eqb (List.length (contents node)) 0)
  then Some (filter (fun c => named c || truthy (strip (get_text c)))
                    (contents node))
  else None.

Definition iscontainer (node : PageElement)
           (children : option (list PageElement)) : bool :=
  match children with
  | Some ((_ :: _) as l) =>
      name_in node ["div"; "body"; "article"]
      || negb (existsb isinstance_NavigableString l)
  | _ => false
  end.

Definition articletext (up : parents) (node : PageElement) (text : string)
  : string :=
  let valid := ["p"; "th"; "td"; "li"; "a"; "b"; "strong"; "i"; "em"] in
  let text :=
    if (name_in node valid || isheader node) && negb (islink up node)
    then text else "" in
  if truthy text then
    let text := replace_nbsp_lf text in
    if name_in node ["p"] then
      if paragraphs self then strip text ++ LF ++ LF else strip text ++ LF
    else text
  else text.

(** One turn of the loop of [text]: the piece that item [x] of [node]
    contributes. *)
Definition piece (node x : PageElement) : string :=
  let target := if named x then x else node in
  let text := get_text x in
  if truthy (strip text) then
    if name_in target ["b"; "strong"] then "**" ++ strip text ++ "** "
    else if name_in target ["i"; "em"] then "*" ++ strip text ++ "* "
    else if name_in target ["a"] then
      "[" ++ strip text ++ "](" ++ str_of_option (get target "href") ++ ") "
    else text
  else text.

(** [items = self.children(node); items = items if items else [node]] *)
Definition inline_items (node : PageElement) : list PageElement :=
  match children node with
  | Some ((_ :: _) as l) => l
  | _ => [node]
  end.

(** The joined pieces, before article processing and stripping. *)
Definition inline (node : PageElement) : string :=
  join "" (map (piece node) (inline_items node)).

Definition text (up : parents) (node : PageElement) (article : bool)
  : string :=
  let text := inline node in
  let text := if article then articletext up node text else text in
  if named node && truthy text then text else strip text.

(** [int(node.name[1])] *)
Definition level (node : PageElement) : option nat :=
  match node with
  | Tag nm _ _ _ =>
      match String.get 1 nm with
      | Some c => int_of_char c
      | None => None
      end
  | NavigableString _ => None
  end.

(** [header] is only called on h1..h6, where [level] is defined (see
    [isheader_level]). *)
Definition header (up : parents) (node : PageElement) (article : bool)
  : string :=
  match level node with
  | Some k =>
      let level := repeat "#" k in
      let text := text up node article in
      let level := if sections self then FF ++ level else LF ++ level in
      if truthy (strip text) then level ++ " " ++ lstrip text else ""
  | None => ""
  end.

Definition block (node : PageElement) : string :=
  let text :=
    join LF (map (fun x => "> " ++ x) (split_lines (strip (get_text node))))
  in
  if paragraphs self then text ++ LF ++ LF else text ++ LF.

Definition code (node : PageElement) : string :=
  let text := "```" ++ LF ++ strip (get_text node) ++ LF ++ "```" in
  if paragraphs self then text ++ LF ++ LF else text ++ LF.

(** The methods below call [self.process]; [rec] stands for it. *)
Section Recursive.

Variable rec : parents -> PageElement -> bool -> string.

Definition item (node : PageElement) (article : bool)
           (e : nat * (parents * PageElement)) : list string :=
  let '(x, (up, element)) := e in
  let prefix := if name_in node ["ul"] then "-"
                else str_of_nat (x + 1) ++ "." in
  let text := rec up element article in
  if truthy text then [prefix ++ " " ++ text] else [].

Definition items (up : parents) (node : PageElement) (article : bool)
  : string :=
  let elements :=
    flat_map (item node article)
             (enumerate (find_all (fun t => name_in t ["li"]) up node)) in
  join LF elements.

Definition columns (row : parents * PageElement)
  : list (parents * PageElement) :=
  find_all (fun tag => name_in tag ["th"; "td"]) (fst row) (snd row).

Definition row_line (article : bool) (row : parents * PageElement) : string :=
  "|" ++ join "|" (map (fun c => rec (fst c) (snd c) article)
                       (columns row)) ++ "|".

Definition separator (n : nat) : string := repeat "|---" n ++ "|".

(** The body of the loop over [rows]; the state is
    [(elements, header)]. *)
Definition table_step (article : bool) (nrows : nat)
           (st : list string * bool) (row : parents * PageElement)
  : list string * bool :=
  let '(elements, header) := st in
  let elements := (elements ++ [row_line article row])%list in
  if negb header && (1 <? nrows)%nat
  then ((elements ++ [separator (List.length (columns row))])%list, true)
  else (elements, header).

Definition table (up : parents) (node : PageElement) (article : bool)
  : string :=
  let rows := find_all (fun t => name_in t ["tr"]) up node in
  let '(elements, _) :=
    fold_left (table_step article (List.length rows)) rows ([], false) in
  join LF elements.

Definition page (node : PageElement) : bool :=
  named node &&
  match get_class node with
  | Some ((_ :: _) as l) => mem "page" l
  | _ => false
  end.

Definition process_body (up : parents) (node : PageElement) (article : bool)
  : string :=
  if isheader node then header up node article
  else if name_in node ["blockquote"; "q"] then block node
  else if name_in node ["ul"; "ol"] then items up node article
  else if name_in node ["code"; "pre"] then code node
  else if name_in node ["table"] then table up node article
  else if name_in node
            (["aside"] ++ (if article then [] else ["header"; "footer"]))
  then ""
  else
    let page := page node in
    let children := children node in
    let text :=
      if iscontainer node children then
        let texts :=
          map (fun c => rec (inside node up) c article)
              (match children with Some l => l | None => [] end) in
        join LF (filter (fun text => truthy text || negb article) texts)
      else text up node article in
    if page && sections self then text ++ FF else text.

End Recursive.

(** [process] by recursion on a bound of the height of the node;
    [process_unfold] below shows that the bound is never reached. *)
Fixpoint process_fuel (fuel : nat) (up : parents) (node : PageElement)
         (article : bool) : string :=
  match fuel with
  | 0 => ""
  | S fuel' => process_body (process_fuel fuel') up node article
  end.

Definition process (up : parents) (node : PageElement) (article : bool)
  : string :=
  process_fuel (S (height node)) up node article.

(** The searches of [metadata]: [find("title")] and
    [find("meta", attrs={"name": "description"})]. *)
Definition is_title (t : PageElement) : bool := name_in t ["title"].

Definition is_description (t : PageElement) : bool :=
  name_in t ["meta"] &&
  match get t "name" with
  | Some v => String.eqb v "description"
  | None => false
  end.

Definition metadata (soup : BeautifulSoup) : result (list string) :=
  let title := soup_find is_title soup in
  let metadata :=
    match title with
    | Some (_, title) =>
        if truthy (get_text title)
        then ["**" ++ strip (get_text title) ++ "**"] else []
    | None => []
    end in
  let description := soup_find is_description soup in
  let separated (metadata : list string) :=
    match metadata with
    | [] => metadata
    | _ => (metadata ++ [if sections self then FF else (LF ++ LF)%string])%list
    end in
  match description with
  | Some (_, description) =>
      match get description "content" with
      | Some content =>
          Ok (separated
                (if truthy content
                 then (metadata
                       ++ [(LF ++ "*" ++ strip content ++ "*")%string])%list
                 else metadata))
      | None => Raise (KeyError "content")
      end
  | None => Ok (separated metadata)
  end.

Definition default (soup : BeautifulSoup) : string :=
  let lines :=
    map (fun line =>
           if sections self && hashes_then_space line
           then FF ++ line else line)
        (split_lines (String.concat "" (map get_text soup))) in
  join LF lines.

(** [next((x for x in ["article", "main"] if soup.find(x)), None)] *)
Definition article_of (soup : BeautifulSoup) : option string :=
  List.find (fun x =>
               match soup_find (fun t => name_in t [x]) soup with
               | Some _ => true
               | None => false
               end)
            ["article"; "main"].

Definition is_some {A : Type} (o : option A) : bool :=
  match o with Some _ => true | None => false end.

(** The nodes that [__call__] hands to [process]. *)
Definition selected (soup : BeautifulSoup) : list (parents * PageElement) :=
  let article := article_of soup in
  filter (fun d => negb (is_some article)
                   || is_some (find (fun t => name_in t ["p"])
                                    (fst d) (snd d)))
         (soup_find_all
            (fun t => name_in t [match article with
                                 | Some a => a
                                 | None => "body"
                                 end]) soup).

(** [__call__], from the tree that the parser returns. *)
Definition __call__ (html : BeautifulSoup) : result string :=
  let soup := decompose_all html in
  let article := article_of soup in
  let nodes :=
    map (fun d => process (fst d) (snd d) (is_some article))
        (selected soup) in
  match nodes with
  | [] => Ok (default soup)
  | _ =>
      match metadata soup with
      | Ok m => Ok (join LF (m ++ nodes)%list)
      | Raise e => Raise e
      end
  end.

End Methods.

(** ** Notions that the properties use *)

(** One of the rules that [process] tries before the container and text
    rules applies to the node. *)
Definition structural (node : PageElement) (article : bool) : bool :=
  isheader node
  || name_in node ["blockquote"; "q"]
  || name_in node ["ul"; "ol"]
  || name_in node ["code"; "pre"]
  || name_in node ["table"]
  || name_in node (["aside"] ++ (if article then [] else ["header"; "footer"])).

(** The node or one of its ancestors is an [<a>] element. *)
Definition link_chain (up : parents) (node : PageElement) : bool :=
  name_in node ["a"] || Py.mem "a" (fst up :: snd up).

(** The immediate parent is a table cell. *)
Definition in_cell (up : parents) : bool := Py.mem (fst up) ["th"; "td"].

(** The tag is in the allow-set of the article filter, or is a heading. *)
Definition allowed (node : PageElement) : bool :=
  name_in node ["p"; "th"; "td"; "li"; "a"; "b"; "strong"; "i"; "em"]
  || isheader node.

(** What the article filter does with the text of a node that it keeps. *)
Definition kept (self : Extract) (node : PageElement) (text : string)
  : string :=
  if Py.truthy text then
    let text := Py.replace_nbsp_lf text in
    if name_in node ["p"] then
      if paragraphs self then Py.strip text ++ Py.LF ++ Py.LF
      else Py.strip text ++ Py.LF
    else text
  else text.

(** The tag of the node is [x]. *)
Definition tagged (x : string) (node : PageElement) : bool :=
  match name node with
  | Some nm => String.eqb nm x
  | None => false
  end.

(** The elements of the document with the tag [x], in document order. *)
Definition elements_tagged (x : string) (soup : BeautifulSoup)
  : list (parents * PageElement) :=
  filter (fun d => tagged x (snd d)) (flat_map (subtree root) soup).

(** Some element of the document has the tag [x]. *)
Definition has_element (x : string) (soup : BeautifulSoup) : bool :=
  existsb (fun d => tagged x (snd d)) (flat_map (subtree root) soup).

(** Some element below the node has the tag [x]. *)
Definition has_below (x : string) (d : parents * PageElement) : bool :=
  existsb (fun q => tagged x (snd q)) (descendants (fst d) (snd d)).

(** The line of one numbered text, if the text is not empty. *)
Definition line_of (prefix : nat -> string) (e : nat * string) : list string :=
  if Py.truthy (snd e) then [prefix (fst e) ++ " " ++ snd e] else [].

(** The string has a newline in it. *)
Fixpoint multiline (s : string) : bool :=
  match s with
  | "" => false
  | String c r => Ascii.eqb c (ascii_of_nat 10) || multiline r
  end.

Definition heights (cs : list PageElement) : nat :=
  fold_right (fun c h => Nat.max (height c) h) 0 cs.

Definition element (nm : string) (cs : list PageElement) : PageElement :=
  Tag nm None [] cs.

(** ** Induction on the tree *)

Section PageElement_rect.

Variable P : PageElement -> Prop.
Hypothesis P_string : forall s, P (NavigableString s).
Hypothesis P_tag :
  forall nm c a cs, Forall P cs -> P (Tag nm c a cs).

Fixpoint PageElement_tree_ind (n : PageElement) : P n :=
  match n with
  | NavigableString s => P_string s
  | Tag nm c a cs =>
      P_tag nm c a cs
        ((fix all (l : list PageElement) : Forall P l :=
            match l with
            | [] => Forall_nil P
            | x :: r => Forall_cons x (PageElement_tree_ind x) (all r)
            end) cs)
  end.

End PageElement_rect.

(** No script or style tag is in the tree. *)
Fixpoint clean (n : PageElement) : bool :=
  negb (name_in n ["script"; "style"])
  && match n with
     | NavigableString _ => true
     | Tag _ _ _ cs => forallb clean cs
     end.

(** The node without its class attribute. *)
Definition unclassed (node : PageElement) : PageElement :=
  match node with
  | NavigableString s => NavigableString s
  | Tag nm _ a cs => Tag nm None a cs
  end.

(** ** Documents of the examples *)

(** [<html><body><h1>This is a test</h1></body></html>] *)
Definition heading_document : BeautifulSoup :=
  [element "html"
     [element "body" [element "h1" [NavigableString "This is a test"]]]].

(** [<html><head><meta name="description"></head>
     <body><p>x</p></body></html>] *)
Definition meta_without_content : BeautifulSoup :=
  [element "html"
     [element "head" [Tag "meta" None [("name", "description")] []];
      element "body" [element "p" [NavigableString "x"]]]].

(** [<html><head><title>T</title>
     <meta name="description" content="D"></head>
     <body><p>x</p></body></html>] *)
Definition described_document : BeautifulSoup :=
  [element "html"
     [element "head"
        [element "title" [NavigableString "T"];
         Tag "meta" None [("name", "description"); ("content", "D")] []];
      element "body" [element "p" [NavigableString "x"]]]].

(** A snippet between [<html><body>] and [</body></html>]. *)
Definition wrapped (snippet : list PageElement) : BeautifulSoup :=
  [element "html" [element "body" snippet]].

(** [Textractor()]: no paragraphs, no sections. *)
Definition defaults : Extract := __init__ false false.

(** The chain of a cell of a table in an article. *)
Definition cell_chain : parents :=
  ("td", ["tr"; "table"; "article"; "body"; "html"; "[document]"]).

(** * Properties *)

(** ** Heights: everything found below a node is lower than the node *)

Lemma height_Tag nm c a cs : height (Tag nm c a cs) = S (heights cs).
Proof. reflexivity. Qed.

Lemma heights_In c cs : In c cs -> height c <= heights cs.
Proof.
  induction cs as [|x r IH]; simpl; intros H; [contradiction|].
  destruct H as [->|H]; [lia|]. specialize (IH H). lia.
Qed.

Lemma subtree_height n :
  forall up d, In d (subtree up n) -> height (snd d) <= height n.
Proof.
  induction n as [s|nm c a cs IH] using PageElement_tree_ind; intros up d H.
  - simpl in H. destruct H as [<-|[]]. simpl. lia.
  - simpl in H. destruct H as [<-|H]; [apply Nat.le_refl|].
    apply in_flat_map in H. destruct H as (x & Hx & Hd).
    rewrite Forall_forall in IH. specialize (IH x Hx _ _ Hd).
    rewrite height_Tag. pose proof (heights_In _ _ Hx). lia.
Qed.

Lemma descendants_height up n d :
  In d (descendants up n) -> height (snd d) < height n.
Proof.
  destruct n as [s|nm c a cs]; [contradiction|].
  rewrite height_Tag. unfold descendants. intros H.
  apply in_flat_map in H. destruct H as (x & Hx & Hd).
  apply subtree_height in Hd. pose proof (heights_In _ _ Hx). lia.
Qed.

Lemma find_all_height f up n d :
  In d (find_all f up n) -> height (snd d) < height n.
Proof.
  unfold find_all. intros H. apply filter_In in H.
  eapply descendants_height, H.
Qed.

Lemma children_height n l c :
  children n = Some l -> In c l -> height c < height n.
Proof.
  unfold children. destruct (_ && _); [|discriminate].
  intros [= <-] H. apply filter_In in H. destruct H as [H _].
  destruct n as [s|nm cl a cs]; simpl in H; [contradiction|].
  apply heights_In in H. rewrite height_Tag. lia.
Qed.

(** ** [process] satisfies the recursive equation of the source *)

Section Unfold.

Variable self : Extract.

Lemma fold_left_ext_in {A B : Type} (f g : A -> B -> A) (l : list B) :
  (forall a b, In b l -> f a b = g a b) ->
  forall a, fold_left f l a = fold_left g l a.
Proof.
  induction l as [|b l IH]; simpl; intros H a; [reflexivity|].
  rewrite (H a b) by (left; reflexivity).
  apply IH. intros a' b' Hb. apply H. right. exact Hb.
Qed.

Lemma flat_map_ext_in {A B : Type} (f g : A -> list B) (l : list A) :
  (forall a, In a l -> f a = g a) -> flat_map f l = flat_map g l.
Proof.
  induction l as [|a l IH]; simpl; intros H; [reflexivity|].
  rewrite (H a) by (left; reflexivity). f_equal.
  apply IH. intros b Hb. apply H. right. exact Hb.
Qed.

Lemma enumerate_In {A : Type} (l : list A) i x :
  In (i, x) (enumerate l) -> In x l.
Proof. unfold enumerate. apply in_combine_r. Qed.

(** [process_body] only calls [rec] on nodes lower than [node]. *)
Lemma process_body_ext (rec1 rec2 : parents -> PageElement -> bool -> string)
      up node article :
  (forall u d a, height d < height node -> rec1 u d a = rec2 u d a) ->
  process_body self rec1 up node article
  = process_body self rec2 up node article.
Proof.
  intros H. unfold process_body.
  destruct (isheader node); [reflexivity|].
  destruct (name_in node ["blockquote"; "q"]); [reflexivity|].
  destruct (name_in node ["ul"; "ol"]).
  { unfold items. f_equal. apply flat_map_ext_in.
    intros [i [u d]] Hin. apply enumerate_In, find_all_height in Hin.
    unfold item. rewrite (H u d article Hin). reflexivity. }
  destruct (name_in node ["code"; "pre"]); [reflexivity|].
  destruct (name_in node ["table"]).
  { unfold table.
    set (rows := find_all (fun t => name_in t ["tr"]) up node).
    rewrite (fold_left_ext_in
               (table_step rec1 article (List.length rows))
               (table_step rec2 article (List.length rows)));
      [reflexivity|].
    intros [els hd] row Hrow. apply find_all_height in Hrow.
    unfold table_step, row_line.
    replace (map (fun c => rec1 (fst c) (snd c) article) (columns row))
      with (map (fun c => rec2 (fst c) (snd c) article) (columns row));
      [reflexivity|].
    apply map_ext_in. intros c Hc. symmetry. apply H.
    unfold columns in Hc. apply find_all_height in Hc. lia. }
  destruct (name_in node _); [reflexivity|].
  destruct (iscontainer node (children node)) eqn:Hcont; [|reflexivity].
  destruct (children node) as [l|] eqn:Hch; [|reflexivity].
  replace (map (fun c => rec1 _ c article) l)
    with (map (fun c =>
                 rec2 (below match name node with
                             | Some nm => nm
                             | None => ""
                             end up) c article) l);
    [reflexivity|].
  apply map_ext_in. intros c Hc. symmetry. apply H.
  eapply children_height; eassumption.
Qed.

Lemma process_fuel_stable fuel :
  forall fuel' up node article,
    height node < fuel -> height node < fuel' ->
    process_fuel self fuel up node article
    = process_fuel self fuel' up node article.
Proof.
  induction fuel as [|fuel IH]; intros [|fuel'] up node article H H';
    try lia.
  simpl. apply process_body_ext. intros u d a Hd. apply IH; lia.
Qed.

(** The equation of [Extract.process]: one step of the body, with
    [process] itself at the recursive calls. *)
Lemma process_unfold up node article :
  process self up node article
  = process_body self (process self) up node article.
Proof.
  unfold process at 1. simpl. apply process_body_ext.
  intros u d a Hd. unfold process. apply process_fuel_stable; lia.
Qed.

End Unfold.

(** ** Dispatch *)

Section Dispatch.

Variable self : Extract.
Import Py.

Lemma mem_In x l : mem x l = true <-> In x l.
Proof.
  unfold mem. rewrite existsb_exists. split.
  - intros (y & Hy & E). apply String.eqb_eq in E. subst. exact Hy.
  - intros H. exists x. split; [exact H|apply String.eqb_refl].
Qed.

Lemma name_in_Tag node l :
  name_in node l = true ->
  exists nm c a cs, node = Tag nm c a cs /\ In nm l.
Proof.
  destruct node as [s|nm c a cs]; simpl; [discriminate|].
  intros H. apply mem_In in H. eauto 6.
Qed.

(** [int(node.name[1])] is defined on every heading. *)
Lemma isheader_level node :
  isheader node = true -> exists k, level node = Some k /\ 1 <= k <= 6.
Proof.
  intros H. apply name_in_Tag in H.
  destruct H as (nm & c & a & cs & -> & H). simpl in H.
  destruct H as [<-|[<-|[<-|[<-|[<-|[<-|[]]]]]]];
    [exists 1|exists 2|exists 3|exists 4|exists 5|exists 6];
    (split; [reflexivity|lia]).
Qed.

Lemma process_header up node article :
  isheader node = true ->
  process self up node article = header self up node article.
Proof.
  intros H. rewrite process_unfold. unfold process_body.
  rewrite H. reflexivity.
Qed.

End Dispatch.

(** ** Headings and page breaks *)

Section Headings.

Import Py.

(** C1, as amended.  A heading is resolved by the heading rule alone,
    whether or not it carries the class token [page]: in section mode
    the result is the section break, the [#] marks of its level, a
    space and the inline text without leading white space, and nothing
    is appended after that text; a heading whose text is blank gives
    the empty string. *)
Theorem process_heading_sections self up node article :
  sections self = true ->
  isheader node = true ->
  exists k,
    level node = Some k /\ 1 <= k <= 6 /\
    process self up node article =
      let t := text self up node article in
      if truthy (strip t) then FF ++ repeat "#" k ++ " " ++ lstrip t
      else "".
Proof.
  intros Hs Hh. destruct (isheader_level node Hh) as (k & Hk & Hr).
  exists k. split; [exact Hk|]. split; [exact Hr|].
  rewrite process_header by exact Hh.
  unfold header. rewrite Hk, Hs. cbv zeta.
  destruct (truthy (strip (text self up node article))); [|reflexivity].
  unfold FF, chr. simpl. reflexivity.
Qed.

Lemma process_heading_sections_witness :
  let self := __init__ false true in
  let node := Tag "h2" (Some ["page"]) [] [NavigableString "Intro"] in
  sections self = true /\ isheader node = true /\
  exists k,
    level node = Some k /\ 1 <= k <= 6 /\
    process self root node false = FF ++ "## Intro".
Proof.
  intros self node. split; [reflexivity|]. split; [reflexivity|].
  destruct (process_heading_sections self root node false
              eq_refl eq_refl) as (k & Hk & Hr & Hp).
  exists k. split; [exact Hk|]. split; [exact Hr|].
  rewrite Hp. injection Hk as <-. reflexivity.
Defined.

(** C1 fails as stated: the heading [<h1 class="page">Title</h1>] in
    section mode comes out as the section break followed by [# Title];
    it does not start with [#] and no break is put after the text. *)
Lemma heading_page_counterexample :
  let self := __init__ false true in
  let node := Tag "h1" (Some ["page"]) [] [NavigableString "Title"] in
  isheader node = true /\ page node = true /\ sections self = true /\
  process self root node false = FF ++ "# Title" /\
  startswith "#" (process self root node false) = false /\
  endswith FF (process self root node false) = false.
Proof. vm_compute. repeat split. Qed.

End Headings.

(** ** Exceptions of the conversion pass *)

Section Exceptions.

Variable self : Extract.

Lemma metadata_raises soup e :
  metadata self soup = Raise e ->
  e = KeyError "content"
  /\ exists u d, soup_find is_description soup = Some (u, d)
                 /\ get d "content" = None.
Proof.
  unfold metadata.
  destruct (soup_find is_description soup) as [[u d]|]; [|discriminate].
  destruct (get d "content") eqn:E; [discriminate|].
  intros [= <-]. split; [reflexivity|]. exists u, d.
  split; [reflexivity|exact E].
Qed.

(** The only exception that leaves [__call__] is the [KeyError] of a
    description meta tag without content, and only when some node is
    selected. *)
Lemma call_raises html e :
  __call__ self html = Raise e ->
  e = KeyError "content"
  /\ selected (decompose_all html) <> []
  /\ exists u d,
      soup_find is_description (decompose_all html) = Some (u, d)
      /\ get d "content" = None.
Proof.
  unfold __call__.
  destruct (selected (decompose_all html)) as [|x l]; [discriminate|].
  cbn [map].
  destruct (metadata self (decompose_all html)) as [m|e'] eqn:E;
    [discriminate|].
  intros [= <-]. apply metadata_raises in E. destruct E as [-> E].
  split; [reflexivity|]. split; [discriminate|exact E].
Qed.

(** Every other document is converted into a string. *)
Lemma call_returns html :
  (forall u d,
      soup_find is_description (decompose_all html) = Some (u, d) ->
      get d "content" <> None) ->
  exists s, __call__ self html = Ok s.
Proof.
  intros H. destruct (__call__ self html) as [s|e] eqn:E; [eauto|].
  apply call_raises in E. destruct E as (_ & _ & u & d & Hd & Hc).
  exfalso. exact (H u d Hd Hc).
Qed.

End Exceptions.

(** ** The conversion pass on concrete documents *)

Section Documents.

Import Py.

(** C9, as amended.  The conversion pass turns the heading document
    into the heading line preceded by the character that the heading
    rule puts in front of the [#] marks: a newline, or the section
    break in section mode. *)
Theorem call_heading_document self :
  __call__ self heading_document
  = Ok ((if sections self then FF else LF) ++ "# This is a test").
Proof. destruct self as [p [|]]; vm_compute; reflexivity. Qed.

(** C9 fails as stated: with the default configuration the result
    starts with a newline, so it is not the bare heading line. *)
Lemma call_heading_document_counterexample :
  __call__ (__init__ false false) heading_document
  = Ok (LF ++ "# This is a test")
  /\ __call__ (__init__ false false) heading_document
     <> Ok "# This is a test".
Proof. split; [vm_compute; reflexivity|vm_compute; discriminate]. Qed.

(** C2 does not hold of the code: on a document whose description
    meta tag has no content attribute, [description["content"]] raises
    [KeyError] and the exception leaves [__call__]. *)
Theorem call_meta_without_content self :
  __call__ self meta_without_content = Raise (KeyError "content").
Proof. destruct self as [[|] [|]]; vm_compute; reflexivity. Qed.

End Documents.

(** ** Containers *)

Section Containers.

Variable self : Extract.
Import Py.

Lemma structural_false node article :
  structural node article = false ->
  isheader node = false
  /\ name_in node ["blockquote"; "q"] = false
  /\ name_in node ["ul"; "ol"] = false
  /\ name_in node ["code"; "pre"] = false
  /\ name_in node ["table"] = false
  /\ name_in node (["aside"] ++ (if article then [] else ["header"; "footer"]))
     = false.
Proof.
  unfold structural. intros H.
  repeat (apply orb_false_elim in H; destruct H as [H ?]).
  repeat split; assumption.
Qed.

(** What [iscontainer] accepts: at least one child is left after the
    white-space strings are dropped, and the tag is div, body or article
    or no child is a string. *)
Lemma iscontainer_spec node :
  iscontainer node (children node) = true <->
  exists nm l,
    name node = Some nm /\ children node = Some l /\ l <> [] /\
    (name_in node ["div"; "body"; "article"] = true
     \/ existsb isinstance_NavigableString l = false).
Proof.
  unfold iscontainer. split.
  - destruct (children node) as [[|c l]|] eqn:E; try discriminate.
    intros H. unfold children in E.
    destruct node as [s|nm cl a cs]; [discriminate|].
    exists nm, (c :: l). split; [reflexivity|].
    split; [reflexivity|]. split; [discriminate|].
    apply orb_true_iff in H. destruct H as [H|H]; [left; exact H|].
    right. apply negb_true_iff in H. exact H.
  - intros (nm & l & _ & -> & Hl & H).
    destruct l as [|c l]; [contradiction|].
    destruct H as [-> | ->]; [reflexivity|apply orb_true_r].
Qed.

Lemma filter_all {A : Type} (f : A -> bool) (l : list A) :
  (forall x, f x = true) -> filter f l = l.
Proof.
  intros H. induction l as [|x l IH]; simpl; [reflexivity|].
  rewrite H, IH. reflexivity.
Qed.

(** C8, as amended.  A node that none of the structural rules takes and
    that [iscontainer] accepts is converted child by child, the results
    joined with newlines: in article mode the empty results are dropped,
    otherwise all of them are kept.  Such a node has at least one child
    left after the white-space strings are dropped. *)
Theorem process_container up node article :
  structural node article = false ->
  iscontainer node (children node) = true ->
  exists nm l,
    name node = Some nm /\ children node = Some l /\ l <> [] /\
    (name_in node ["div"; "body"; "article"] = true
     \/ existsb isinstance_NavigableString l = false) /\
    let texts := map (fun c => process self (below nm up) c article) l in
    let text := join LF (if article then filter truthy texts else texts) in
    process self up node article
    = if page node && sections self then text ++ FF else text.
Proof.
  intros Hs Hc. pose proof Hc as Hc'.
  apply iscontainer_spec in Hc'.
  destruct Hc' as (nm & l & Hn & Hl & Hne & Hk).
  exists nm, l. repeat (split; [assumption|]).
  apply structural_false in Hs.
  destruct Hs as (H1 & H2 & H3 & H4 & H5 & H6).
  rewrite process_unfold. unfold process_body.
  rewrite H1, H2, H3, H4, H5, H6, Hc, Hl. unfold inside. rewrite Hn.
  cbv zeta. destruct article.
  - rewrite (filter_ext (fun text => truthy text || negb true) truthy);
      [reflexivity|].
    intros x. apply orb_false_r.
  - rewrite (filter_all (fun text => truthy text || negb false));
      [reflexivity|].
    intros x. apply orb_true_r.
Qed.

(** The other nodes that no structural rule takes go to the inline-text
    rule; the page break is put after its result in the same way. *)
Lemma process_inline up node article :
  structural node article = false ->
  iscontainer node (children node) = false ->
  process self up node article
  = let text := text self up node article in
    if page node && sections self then text ++ FF else text.
Proof.
  intros Hs Hc. apply structural_false in Hs.
  destruct Hs as (H1 & H2 & H3 & H4 & H5 & H6).
  rewrite process_unfold. unfold process_body.
  rewrite H1, H2, H3, H4, H5, H6, Hc. reflexivity.
Qed.

End Containers.

Section ContainerExamples.

Import Py.

Lemma process_container_witness :
  let self := __init__ false false in
  let node :=
    element "div" [element "span" [NavigableString "a"];
                   element "span" [];
                   element "span" [NavigableString "b"]] in
  structural node false = false /\
  iscontainer node (children node) = true /\
  process self root node false = "a" ++ LF ++ LF ++ "b".
Proof.
  intros self node. split; [reflexivity|]. split; [reflexivity|].
  destruct (process_container self root node false eq_refl eq_refl)
    as (nm & l & Hn & Hl & _ & _ & Hp).
  injection Hn as <-. injection Hl as <-. rewrite Hp.
  vm_compute. reflexivity.
Defined.

(** C8 fails as stated: [<div> </div>] has the tag div, but with no
    child left it is not treated as a container.  Outside article mode
    the text rule returns its white space, where the join of its (zero)
    child results is the empty string. *)
Lemma container_counterexample :
  let self := __init__ false false in
  let node := element "div" [NavigableString " "] in
  name_in node ["div"; "body"; "article"] = true /\
  children node = Some [] /\
  iscontainer node (children node) = false /\
  process self root node false = " " /\
  join LF (map (fun c => process self (below "div" root) c false) []) = "".
Proof. vm_compute. repeat split. Qed.

End ContainerExamples.

(** ** The article filter and links *)

Section ArticleFilter.

Variable self : Extract.
Import Py.

Lemma islink_in_cell up node : in_cell up = true -> islink up node = false.
Proof.
  unfold in_cell, islink. intros ->. apply andb_false_r.
Qed.

Lemma islink_chain up node :
  named node = true -> link_chain up node = true -> in_cell up = false ->
  islink up node = true.
Proof.
  unfold link_chain, in_cell, islink, mem.
  destruct node as [s|nm c a cs]; [discriminate|]. intros _ H ->.
  simpl in H. rewrite orb_false_r in H. simpl negb. rewrite andb_true_r.
  exact H.
Qed.

Lemma allowed_named node : allowed node = true -> named node = true.
Proof.
  unfold allowed, isheader. intros H. apply orb_true_iff in H.
  destruct H as [H|H]; apply name_in_Tag in H;
    destruct H as (nm & c & a & cs & -> & H); simpl in H;
    repeat (destruct H as [<-|H]; [reflexivity|]); contradiction.
Qed.

Lemma articletext_cases up node text :
  articletext self up node text
  = if allowed node && negb (islink up node) then kept self node text else "".
Proof.
  unfold articletext, kept, allowed.
  destruct ((_ || _) && _); reflexivity.
Qed.

(** C6, as amended.  For a node that is, or lies below, an [<a>] element:
    in article mode the filter empties it when its parent is not a table
    cell; when its parent is a table cell the node does not count as a
    link and the filter keeps it exactly when its tag is in the allow-set
    or is a heading; outside article mode the filter is not applied, the
    text does not depend on the ancestors, and it is not empty when the
    inline text is not blank. *)
Theorem article_link_filter up node :
  link_chain up node = true ->
  (in_cell up = false ->
   (forall t, articletext self up node t = "")
   /\ text self up node true = "")
  /\ (in_cell up = true ->
      islink up node = false
      /\ forall t, articletext self up node t
                   = if allowed node then kept self node t else "")
  /\ (forall up', text self up' node false = text self up node false)
  /\ (strip (inline node) <> "" -> text self up node false <> "").
Proof.
  intros Hl. split; [|split; [|split]].
  - intros Hc.
    assert (Ha : forall t, articletext self up node t = "").
    { intros t. rewrite articletext_cases.
      destruct (allowed node) eqn:Hal; [|reflexivity].
      rewrite (islink_chain up node (allowed_named _ Hal) Hl Hc).
      reflexivity. }
    split; [exact Ha|].
    unfold text. rewrite Ha. rewrite andb_false_r. reflexivity.
  - intros Hc. split; [apply islink_in_cell, Hc|].
    intros t. rewrite articletext_cases, (islink_in_cell up node Hc).
    rewrite andb_true_r. reflexivity.
  - intros up'. reflexivity.
  - intros Hb. unfold text.
    destruct (named node && truthy (inline node)) eqn:E; [|exact Hb].
    apply andb_true_iff in E. destruct E as [_ E].
    destruct (inline node); [discriminate|discriminate].
Qed.

End ArticleFilter.

Section ArticleFilterExamples.

Import Py.

Lemma article_link_filter_witness :
  let self := __init__ false false in
  let node := Tag "a" None [("href", "u")] [NavigableString "x"] in
  link_chain cell_chain node = true /\
  in_cell cell_chain = true /\
  islink cell_chain node = false /\
  articletext self cell_chain node "[x](u) " = "[x](u) ".
Proof.
  intros self node. split; [reflexivity|]. split; [reflexivity|].
  destruct (article_link_filter self cell_chain node eq_refl)
    as (_ & H & _).
  destruct (H eq_refl) as (Hl & Ht). split; [exact Hl|].
  rewrite Ht. reflexivity.
Defined.

(** C6 fails as stated: in
    [<a href="u"><table><tr><td><span>t</span></td></tr></table></a>]
    the span lies below an [<a>] element and its parent is a table cell,
    yet in article mode it is emptied, because span is not in the
    allow-set; outside article mode it gives [t]. *)
Lemma link_in_cell_counterexample :
  let self := __init__ false false in
  let up := ("td", ["tr"; "table"; "a"; "article"; "body"; "html";
                    "[document]"]) in
  let node := element "span" [NavigableString "t"] in
  link_chain up node = true /\ in_cell up = true /\
  text self up node true = "" /\
  process self up node true = "" /\
  text self up node false = "t".
Proof. vm_compute. repeat split. Qed.

End ArticleFilterExamples.

(** ** The metadata preamble *)

Section Metadata.

Variable self : Extract.
Import Py.

Lemma append_assoc (a b c : string) : (a ++ b) ++ c = a ++ b ++ c.
Proof. induction a as [|x a IH]; simpl; [reflexivity|]. now rewrite IH. Qed.

Lemma truthy_iff s : truthy s = true <-> s <> "".
Proof. destruct s; simpl; split; congruence. Qed.

Lemma join_cons sep x y l :
  join sep (x :: y :: l) = x ++ sep ++ join sep (y :: l).
Proof. reflexivity. Qed.

(** C3, as amended.  When the first title has text, the first
    description meta tag has content and at least one node is selected,
    the result is the title in bold, an empty line, the description in
    italics, and then, each between two newlines of the join, the
    separator (the section break in section mode, two newlines
    otherwise) and the converted nodes. *)
Theorem metadata_preamble html ut title ud description content :
  let soup := decompose_all html in
  soup_find is_title soup = Some (ut, title) ->
  get_text title <> "" ->
  soup_find is_description soup = Some (ud, description) ->
  get description "content" = Some content ->
  content <> "" ->
  selected soup <> [] ->
  __call__ self html
  = Ok ("**" ++ strip (get_text title) ++ "**" ++ LF ++ LF
        ++ "*" ++ strip content ++ "*" ++ LF
        ++ (if sections self then FF else LF ++ LF) ++ LF
        ++ join LF (map (fun d => process self (fst d) (snd d)
                                          (is_some (article_of soup)))
                        (selected soup))).
Proof.
  intros soup Ht Htt Hd Hc Hcc Hsel.
  unfold __call__. fold soup.
  destruct (selected soup) as [|d ds] eqn:Es; [contradiction|].
  cbn [map]. unfold metadata. rewrite Ht, Hd, Hc.
  apply truthy_iff in Htt. apply truthy_iff in Hcc. rewrite Htt, Hcc.
  cbn [app]. f_equal.
  rewrite !join_cons. rewrite !append_assoc. reflexivity.
Qed.

End Metadata.

Section MetadataExamples.

Import Py.

Lemma metadata_preamble_witness :
  let self := __init__ false true in
  let soup := decompose_all described_document in
  let title := element "title" [NavigableString "T"] in
  let description :=
    Tag "meta" None [("name", "description"); ("content", "D")] [] in
  soup_find is_title soup = Some (("head", ["html"; "[document]"]), title) /\
  get_text title <> "" /\
  soup_find is_description soup
  = Some (("head", ["html"; "[document]"]), description) /\
  get description "content" = Some "D" /\
  "D" <> "" /\
  selected soup <> [] /\
  __call__ self described_document
  = Ok ("**T**" ++ LF ++ LF ++ "*D*" ++ LF ++ FF ++ LF ++ "x").
Proof.
  intros self soup title description.
  assert (H1 : get_text title <> "") by (vm_compute; discriminate).
  assert (H2 : "D" <> "") by discriminate.
  assert (H3 : selected soup <> []) by (vm_compute; discriminate).
  repeat (split; [first [reflexivity|assumption]|]).
  rewrite (metadata_preamble self described_document _ title _ description
             "D" eq_refl H1 eq_refl eq_refl H2 H3).
  vm_compute. reflexivity.
Defined.

(** C3 fails as stated: the separator does not follow the description
    immediately.  In section mode a newline stands between the
    description and the section break; otherwise four newlines, not
    two, stand between the description and the first fragment. *)
Lemma metadata_separator_counterexample :
  __call__ (__init__ false true) described_document
  = Ok ("**T**" ++ LF ++ LF ++ "*D*" ++ LF ++ FF ++ LF ++ "x")
  /\ startswith ("**T**" ++ LF ++ LF ++ "*D*" ++ FF)
                ("**T**" ++ LF ++ LF ++ "*D*" ++ LF ++ FF ++ LF ++ "x")
     = false
  /\ __call__ (__init__ false false) described_document
     = Ok ("**T**" ++ LF ++ LF ++ "*D*" ++ LF ++ LF ++ LF ++ LF ++ "x")
  /\ startswith ("**T**" ++ LF ++ LF ++ "*D*" ++ LF ++ LF ++ "x")
                ("**T**" ++ LF ++ LF ++ "*D*" ++ LF ++ LF ++ LF ++ LF ++ "x")
     = false.
Proof. vm_compute. repeat split. Qed.

End MetadataExamples.

(** ** Lines of a joined text *)

Section Lines.

Import Py.

Lemma multiline_app a b : multiline (a ++ b) = multiline a || multiline b.
Proof.
  induction a as [|c a IH]; simpl; [reflexivity|].
  rewrite IH. apply orb_assoc.
Qed.

Lemma split_lines_single s : multiline s = false -> split_lines s = [s].
Proof.
  induction s as [|c s IH]; simpl; [reflexivity|]. intros H.
  apply orb_false_elim in H. destruct H as [Hc Hs].
  rewrite Hc, (IH Hs). reflexivity.
Qed.

Lemma split_lines_app a b :
  multiline a = false -> split_lines (a ++ LF ++ b) = a :: split_lines b.
Proof.
  induction a as [|c a IH]; simpl; [reflexivity|]. intros H.
  apply orb_false_elim in H. destruct H as [Hc Ha].
  specialize (IH Ha). simpl in IH. rewrite Hc, IH. reflexivity.
Qed.

(** Joining with newlines texts that have no newline in them and
    splitting the result into lines gives the texts back. *)
Lemma split_lines_join (l : list string) :
  l <> [] -> (forall t, In t l -> multiline t = false) ->
  split_lines (join LF l) = l.
Proof.
  induction l as [|x l IH]; [contradiction|]. intros _ H.
  destruct l as [|y l].
  - simpl. apply split_lines_single, H. left. reflexivity.
  - change (join LF (x :: y :: l)) with (x ++ LF ++ join LF (y :: l)).
    rewrite split_lines_app by (apply H; left; reflexivity).
    rewrite IH; [reflexivity|discriminate|].
    intros t Ht. apply H. right. exact Ht.
Qed.

Lemma multiline_uint d : multiline (NilEmpty.string_of_uint d) = false.
Proof. induction d; simpl; assumption || reflexivity. Qed.

Lemma multiline_join_bar (l : list string) :
  (forall t, In t l -> multiline t = false) -> multiline (join "|" l) = false.
Proof.
  induction l as [|x l IH]; intros H; [reflexivity|].
  destruct l as [|y l].
  - simpl. apply H. left. reflexivity.
  - change (join "|" (x :: y :: l)) with (x ++ "|" ++ join "|" (y :: l)).
    rewrite multiline_app, (H x) by (left; reflexivity).
    rewrite multiline_app, IH; [reflexivity|].
    intros t Ht. apply H. right. exact Ht.
Qed.

Lemma multiline_separator n : multiline (separator n) = false.
Proof.
  unfold separator. rewrite multiline_app.
  induction n as [|n IH]; [reflexivity|]. simpl. exact IH.
Qed.

End Lines.

(** ** Lists *)

Section Lists.

Variable self : Extract.
Import Py.

Lemma enumerate_map {A B : Type} (f : A -> B) (l : list A) :
  enumerate (map f l) = map (fun e => (fst e, f (snd e))) (enumerate l).
Proof.
  unfold enumerate. rewrite length_map. generalize 0 as s.
  induction l as [|x l IH]; intros s; simpl; [reflexivity|].
  rewrite IH. reflexivity.
Qed.

Lemma flat_map_map {A B C : Type} (f : A -> B) (g : B -> list C) l :
  flat_map g (map f l) = flat_map (fun x => g (f x)) l.
Proof.
  induction l as [|x l IH]; simpl; [reflexivity|]. rewrite IH. reflexivity.
Qed.

Lemma lines_length prefix (l : list string) :
  forall s,
    List.length (flat_map (line_of prefix) (combine (seq s (List.length l)) l))
    = List.length (filter truthy l).
Proof.
  induction l as [|t l IH]; intros s; simpl; [reflexivity|].
  rewrite length_app, IH. unfold line_of. simpl.
  destruct (truthy t); reflexivity.
Qed.

Lemma lines_In prefix (l : list string) line :
  forall s,
    In line (flat_map (line_of prefix) (combine (seq s (List.length l)) l))
    <-> exists i t, nth_error l i = Some t /\ t <> ""
                    /\ line = prefix (s + i) ++ " " ++ t.
Proof.
  induction l as [|t l IH]; intros s; simpl.
  - split; [contradiction|]. intros (i & t & H & _). destruct i; discriminate.
  - rewrite in_app_iff, (IH (S s)). unfold line_of at 1. simpl. split.
    + intros [H|(i & t' & Hn & Ht & ->)].
      * destruct t as [|c t]; simpl in H; [contradiction|].
        destruct H as [<-|[]]. exists 0, (String c t).
        rewrite Nat.add_0_r. repeat split. discriminate.
      * exists (S i), t'. rewrite Nat.add_succ_r. repeat split; assumption.
    + intros ([|i] & t' & Hn & Ht & ->).
      * simpl in Hn. injection Hn as ->. left.
        destruct t' as [|c t']; [contradiction|].
        rewrite Nat.add_0_r. left. reflexivity.
      * right. exists i, t'. rewrite Nat.add_succ_r.
        repeat split; assumption.
Qed.

Lemma lines_all prefix (l : list string) :
  (forall t, In t l -> t <> "") ->
  forall s,
    flat_map (line_of prefix) (combine (seq s (List.length l)) l)
    = map (fun e => prefix (fst e) ++ " " ++ snd e)
          (combine (seq s (List.length l)) l).
Proof.
  intros H. induction l as [|t l IH]; intros s; simpl; [reflexivity|].
  rewrite IH by (intros t' Ht'; apply H; right; exact Ht').
  unfold line_of. simpl.
  destruct t as [|c t]; [|reflexivity].
  exfalso. apply (H ""); [left|]; reflexivity.
Qed.

Lemma process_items up node article :
  name_in node ["ul"; "ol"] = true ->
  process self up node article = items (process self) up node article.
Proof.
  intros H. rewrite process_unfold. apply name_in_Tag in H.
  destruct H as (nm & c & a & cs & -> & [<-|[<-|[]]]); reflexivity.
Qed.

Lemma multiline_line prefix e line :
  (forall i, multiline (prefix i) = false) ->
  multiline (snd e) = false ->
  In line (line_of prefix e) -> multiline line = false.
Proof.
  intros Hp He. unfold line_of.
  destruct (truthy (snd e)); [|contradiction].
  intros [<-|[]]. rewrite !multiline_app, Hp, He. reflexivity.
Qed.

(** C4.  A list is converted into one line for each [<li>] below it
    whose converted text is not empty, in document order, the lines
    joined with newlines.  The line of the item at position [i]
    (counting every [<li>] from 1, empty or not) is its text after
    ["- "] in an unordered list and after the number [i], a dot and a
    space in an ordered list; an item whose text is empty gives no line,
    and its number is not used by another item.  When no item is empty
    the lines of an ordered list are numbered 1, 2, ... without a gap.
    When no text has a newline in it, these are the lines of the
    output. *)
Theorem list_items up node article :
  name_in node ["ul"; "ol"] = true ->
  let texts :=
    map (fun d => process self (fst d) (snd d) article)
        (find_all (fun t => name_in t ["li"]) up node) in
  let prefix i :=
    if name_in node ["ul"] then "-" else str_of_nat (i + 1) ++ "." in
  let lines := flat_map (line_of prefix) (enumerate texts) in
  process self up node article = join LF lines
  /\ List.length lines = List.length (filter truthy texts)
  /\ (forall line,
        In line lines <->
        exists i t, nth_error texts i = Some t /\ t <> ""
                    /\ line = prefix i ++ " " ++ t)
  /\ ((forall t, In t texts -> t <> "") ->
      lines = map (fun e => prefix (fst e) ++ " " ++ snd e)
                  (enumerate texts))
  /\ ((forall t, In t texts -> multiline t = false) -> lines <> [] ->
      split_lines (process self up node article) = lines).
Proof.
  intros H texts prefix lines.
  assert (Hp : process self up node article = join LF lines).
  { rewrite process_items by exact H. unfold items. f_equal.
    unfold lines, texts. rewrite enumerate_map, flat_map_map.
    apply flat_map_ext_in. intros [i [u d]] _. reflexivity. }
  split; [exact Hp|]. split; [|split; [|split]].
  - apply lines_length.
  - intros line. apply (lines_In prefix texts line 0).
  - intros Hne. apply lines_all. exact Hne.
  - intros Hml Hl. rewrite Hp. apply split_lines_join; [exact Hl|].
    intros line Hin. unfold lines in Hin. apply in_flat_map in Hin.
    destruct Hin as ([i t] & Hin & Hline).
    apply (multiline_line prefix (i, t)); [|apply Hml|exact Hline].
    + intros j. unfold prefix. destruct (name_in node ["ul"]);
        [reflexivity|].
      rewrite multiline_app. unfold str_of_nat.
      rewrite multiline_uint. reflexivity.
    + apply enumerate_In in Hin. exact Hin.
Qed.

End Lists.

Section ListExamples.

Import Py.

Lemma list_items_witness :
  let self := __init__ false false in
  let node :=
    element "ol" [element "li" [NavigableString "Test1"];
                  element "li" [];
                  element "li" [NavigableString "Test2"]] in
  name_in node ["ul"; "ol"] = true /\
  process self root node false = "1. Test1" ++ LF ++ "3. Test2".
Proof.
  intros self node. split; [reflexivity|].
  rewrite (proj1 (list_items self root node false eq_refl)).
  vm_compute. reflexivity.
Defined.

End ListExamples.

(** ** Tables *)

Section Tables.

Variable self : Extract.
Import Py.

Lemma table_fold_rest rec article n rows :
  forall elements,
    fold_left (table_step rec article n) rows (elements, true)
    = ((elements ++ map (row_line rec article) rows)%list, true).
Proof.
  induction rows as [|r rows IH]; intros elements; simpl.
  - rewrite app_nil_r. reflexivity.
  - rewrite IH, <- app_assoc. reflexivity.
Qed.

Lemma table_step_first rec article n row :
  (1 <? n)%nat = true ->
  table_step rec article n ([], false) row
  = ([row_line rec article row; separator (List.length (columns row))],
     true).
Proof. intros H. unfold table_step. rewrite H. reflexivity. Qed.

Lemma table_many rec up node article first rest :
  find_all (fun t => name_in t ["tr"]) up node = first :: rest ->
  rest <> [] ->
  table rec up node article
  = join LF (row_line rec article first
               :: separator (List.length (columns first))
               :: map (row_line rec article) rest).
Proof.
  intros E Hr. unfold table. rewrite E.
  destruct rest as [|second rest]; [contradiction|].
  change (fold_left ?f (first :: ?l) ?a) with (fold_left f l (f a first)).
  rewrite table_step_first by reflexivity.
  rewrite table_fold_rest. reflexivity.
Qed.

Lemma table_single rec up node article only :
  find_all (fun t => name_in t ["tr"]) up node = [only] ->
  table rec up node article = row_line rec article only.
Proof. intros E. unfold table. rewrite E. reflexivity. Qed.

Lemma process_table up node article :
  name_in node ["table"] = true ->
  process self up node article = table (process self) up node article.
Proof.
  intros H. rewrite process_unfold. apply name_in_Tag in H.
  destruct H as (nm & c & a & cs & -> & [<-|[]]). reflexivity.
Qed.

Lemma multiline_row_line rec article row :
  (forall c, In c (columns row) ->
             multiline (rec (fst c) (snd c) article) = false) ->
  multiline (row_line rec article row) = false.
Proof.
  intros H. unfold row_line. rewrite !multiline_app.
  rewrite multiline_join_bar; [reflexivity|].
  intros t Ht. apply in_map_iff in Ht. destruct Ht as (c & <- & Hc).
  apply H, Hc.
Qed.

(** C5.  A table with [N] rows of [M] cells each is converted into the
    lines of its rows, each the converted cells between [|] marks,
    joined with newlines.  When [N > 1] the line of [M] cells [|---],
    closed by [|], stands once, right after the line of the first row,
    so that there are [N + 1] lines; a table of one row is the line of
    that row alone.  When no cell text has a newline in it, these are
    the lines of the output. *)
Theorem table_rows up node article N M :
  name_in node ["table"] = true ->
  let rows := find_all (fun t => name_in t ["tr"]) up node in
  let line := row_line (process self) article in
  List.length rows = N ->
  Forall (fun row => List.length (columns row) = M) rows ->
  (1 < N ->
   exists first rest,
     rows = first :: rest /\
     List.length (line first :: separator M :: map line rest) = N + 1 /\
     process self up node article
     = join LF (line first :: separator M :: map line rest) /\
     ((forall row c,
          In row rows -> In c (columns row) ->
          multiline (process self (fst c) (snd c) article) = false) ->
      split_lines (process self up node article)
      = line first :: separator M :: map line rest))
  /\ (N = 1 ->
      exists only,
        rows = [only] /\ process self up node article = line only).
Proof.
  intros H rows line HN HM. rewrite process_table by exact H.
  fold line. remember rows as rs eqn:E. unfold rows in E. clear rows.
  symmetry in E. split.
  - intros Hlt. destruct rs as [|first rest]; [simpl in HN; lia|].
    exists first, rest. split; [reflexivity|]. split.
    { simpl. rewrite length_map. simpl in HN. lia. }
    pose proof (Forall_inv HM) as HM1. simpl in HM1.
    assert (Ht : table (process self) up node article
                 = join LF (line first :: separator M :: map line rest)).
    { unfold line. rewrite (table_many _ _ _ _ first rest E).
      - rewrite HM1. reflexivity.
      - destruct rest; [simpl in HN; lia|discriminate]. }
    split; [exact Ht|]. intros Hml. rewrite Ht.
    apply split_lines_join; [discriminate|].
    intros t [<-|[<-|Hin]].
    + apply multiline_row_line. intros c Hc.
      apply (Hml first c); [left; reflexivity|exact Hc].
    + apply multiline_separator.
    + apply in_map_iff in Hin. destruct Hin as (row & <- & Hrow).
      apply multiline_row_line. intros c Hc.
      apply (Hml row c); [right; exact Hrow|exact Hc].
  - intros ->. destruct rs as [|only [|second rest]];
      try discriminate.
    exists only. split; [reflexivity|].
    apply table_single. exact E.
Qed.

End Tables.

Section TableExamples.

Import Py.

Lemma table_rows_witness :
  let self := __init__ false false in
  let node :=
    element "table"
      [element "tr" [element "th" [NavigableString "Header1"];
                     element "th" [NavigableString "Header2"]];
       element "tr" [element "td" [NavigableString "Test1"];
                     element "td" [NavigableString "Test2"]]] in
  let rows := find_all (fun t => name_in t ["tr"]) root node in
  name_in node ["table"] = true /\
  List.length rows = 2 /\
  Forall (fun row => List.length (columns row) = 2) rows /\
  1 < 2 /\
  process self root node false
  = "|Header1|Header2|" ++ LF ++ "|---|---|" ++ LF ++ "|Test1|Test2|".
Proof.
  intros self node rows.
  assert (HM : Forall (fun row => List.length (columns row) = 2) rows)
    by (repeat constructor).
  split; [reflexivity|]. split; [reflexivity|]. split; [exact HM|].
  split; [lia|].
  destruct (proj1 (table_rows self root node false 2 2 eq_refl eq_refl HM)
                  ltac:(lia)) as (first & rest & E & _ & Hp & _).
  injection E as <- <-. rewrite Hp. vm_compute. reflexivity.
Defined.

End TableExamples.

(** ** The structure selector *)

Section Selector.

Variable self : Extract.
Import Py.

Lemma is_some_hd_filter {A : Type} (f : A -> bool) (l : list A) :
  is_some (hd_error (filter f l)) = existsb f l.
Proof.
  induction l as [|x l IH]; simpl; [reflexivity|].
  destruct (f x); [reflexivity|exact IH].
Qed.

Lemma tag_test x node :
  negb (isinstance_NavigableString node) && name_in node [x] = tagged x node.
Proof.
  destruct node as [s|nm c a cs]; simpl; [reflexivity|].
  apply orb_false_r.
Qed.

Lemma soup_find_all_tagged x soup :
  soup_find_all (fun t => name_in t [x]) soup = elements_tagged x soup.
Proof.
  unfold soup_find_all, find_all_in, elements_tagged.
  apply filter_ext. intros d. apply tag_test.
Qed.

Lemma soup_find_tagged x soup :
  is_some (soup_find (fun t => name_in t [x]) soup) = has_element x soup.
Proof.
  unfold soup_find. rewrite soup_find_all_tagged.
  apply is_some_hd_filter.
Qed.

Lemma find_below x d :
  is_some (find (fun t => name_in t [x]) (fst d) (snd d)) = has_below x d.
Proof.
  unfold find, find_all, has_below.
  rewrite (filter_ext _ (fun q => tagged x (snd q)))
    by (intros q; apply tag_test).
  apply is_some_hd_filter.
Qed.

Lemma article_of_spec soup :
  article_of soup
  = if has_element "article" soup then Some "article"
    else if has_element "main" soup then Some "main"
    else None.
Proof.
  unfold article_of. cbn [List.find].
  change (match soup_find (fun t => name_in t ["article"]) soup with
          | Some _ => true | None => false end)
    with (is_some (soup_find (fun t => name_in t ["article"]) soup)).
  change (match soup_find (fun t => name_in t ["main"]) soup with
          | Some _ => true | None => false end)
    with (is_some (soup_find (fun t => name_in t ["main"]) soup)).
  rewrite !soup_find_tagged. reflexivity.
Qed.

(** C7.  The root mode is article when the document has an article
    element, else main when it has a main element, else none, and then
    the scope is body.  The selected nodes are the elements with the
    scope tag, in document order; in article or main mode those without
    a [<p>] element below them are left out.  The selected nodes are
    converted in that order and joined after the metadata. *)
Theorem structure_selector html :
  let soup := decompose_all html in
  let mode := article_of soup in
  mode = (if has_element "article" soup then Some "article"
          else if has_element "main" soup then Some "main"
          else None)
  /\ selected soup
     = match mode with
       | Some scope => filter (has_below "p") (elements_tagged scope soup)
       | None => elements_tagged "body" soup
       end
  /\ __call__ self html
     = match selected soup with
       | [] => Ok (default self soup)
       | _ =>
           match metadata self soup with
           | Ok m =>
               Ok (join LF
                     (m ++ map (fun d => process self (fst d) (snd d)
                                                 (is_some mode))
                               (selected soup)))
           | Raise e => Raise e
           end
       end.
Proof.
  intros soup mode. split; [apply article_of_spec|]. split.
  - unfold selected. fold mode. destruct mode as [scope|].
    + rewrite soup_find_all_tagged. apply filter_ext.
      intros d. cbn [is_some negb orb]. apply find_below.
    + rewrite soup_find_all_tagged. apply filter_all. reflexivity.
  - unfold __call__. fold soup. fold mode.
    destruct (selected soup); reflexivity.
Qed.

End Selector.

(** ** The scenarios of the test suite

    [testHTML] wraps each snippet in [<html><body>...</body></html>] and
    compares the result after the text cleaning of the caller, which
    removes white space at both ends.  The conversion pass itself gives
    the strings below. *)

Section TestSuite.

Import Py.

Example test_unordered_list :
  __call__ defaults
    (wrapped [element "ul" [element "li" [NavigableString "Test1"];
                            element "li" [NavigableString "Test2"]]])
  = Ok ("- Test1" ++ LF ++ "- Test2").
Proof. vm_compute. reflexivity. Qed.

Example test_ordered_list :
  __call__ defaults
    (wrapped [element "ol" [element "li" [NavigableString "Test1"];
                            element "li" [NavigableString "Test2"]]])
  = Ok ("1. Test1" ++ LF ++ "2. Test2").
Proof. vm_compute. reflexivity. Qed.

Example test_table :
  __call__ defaults
    (wrapped
       [element "table"
          [element "tr" [element "th" [NavigableString "Header1"];
                         element "th" [NavigableString "Header2"]];
           element "tr" [element "td" [NavigableString "Test1"];
                         element "td" [NavigableString "Test2"]]]])
  = Ok ("|Header1|Header2|" ++ LF ++ "|---|---|" ++ LF ++ "|Test1|Test2|").
Proof. vm_compute. reflexivity. Qed.

Example test_aside :
  __call__ defaults
    (wrapped [element "aside" [NavigableString "This is a test"]])
  = Ok "".
Proof. vm_compute. reflexivity. Qed.

Example test_blockquote :
  __call__ defaults
    (wrapped [element "blockquote" [NavigableString "This is a test"]])
  = Ok ("> This is a test" ++ LF).
Proof. vm_compute. reflexivity. Qed.

Example test_code :
  __call__ defaults
    (wrapped [element "code" [NavigableString "This is a test"]])
  = Ok ("```" ++ LF ++ "This is a test" ++ LF ++ "```" ++ LF).
Proof. vm_compute. reflexivity. Qed.

Example test_nested_emphasis :
  __call__ defaults
    (wrapped [element "p" [NavigableString "This is a ";
                           element "strong"
                             [element "em" [NavigableString "test"]]]])
  = Ok "This is a **test** ".
Proof. vm_compute. reflexivity. Qed.

Example test_link :
  __call__ defaults
    (wrapped [element "p" [NavigableString "This is a ";
                           Tag "a" None [("href", "link")]
                               [NavigableString "test"]]])
  = Ok "This is a [test](link) ".
Proof. vm_compute. reflexivity. Qed.

(** Markdown input has no body: the fallback marks its headings in
    section mode. *)
Example test_default_sections :
  __call__ (__init__ false true)
    [NavigableString ("# Heading 1" ++ LF ++ "Text1")]
  = Ok (FF ++ "# Heading 1" ++ LF ++ "Text1").
Proof. vm_compute. reflexivity. Qed.

End TestSuite.

(** * Further properties of the extractor *)

(** ** Splitting into lines and joining again *)

Section SplitJoin.

Import Py.

Lemma split_lines_cons s : exists l ls, split_lines s = l :: ls.
Proof.
  induction s as [|c s (l & ls & IH)]; simpl; [eauto|].
  destruct (Ascii.eqb c (ascii_of_nat 10)); [eauto|].
  rewrite IH. eauto.
Qed.

Lemma join_String sep c l ls :
  join sep (String c l :: ls) = String c (join sep (l :: ls)).
Proof. destruct ls; reflexivity. Qed.

(** ["\n".join(s.split("\n")) == s] *)
Lemma join_split_lines s : join LF (split_lines s) = s.
Proof.
  induction s as [|c s IH]; [reflexivity|]. simpl.
  destruct (split_lines_cons s) as (l & ls & E). rewrite E in *.
  destruct (Ascii.eqb c (ascii_of_nat 10)) eqn:Ec.
  - apply Ascii.eqb_eq in Ec. subst c.
    change (join LF ("" :: l :: ls)) with (LF ++ join LF (l :: ls)).
    rewrite IH. reflexivity.
  - rewrite join_String, IH. reflexivity.
Qed.

(** [(a + "\n" + b).split("\n") == a.split("\n") + b.split("\n")] *)
Lemma split_lines_app_lf a b :
  split_lines (a ++ LF ++ b) = (split_lines a ++ split_lines b)%list.
Proof.
  induction a as [|c a IH]; [reflexivity|].
  change (String c a ++ LF ++ b) with (String c (a ++ LF ++ b)).
  cbn [split_lines]. rewrite IH.
  destruct (Ascii.eqb c (ascii_of_nat 10)); [reflexivity|].
  destruct (split_lines_cons a) as (l & ls & E). rewrite E. reflexivity.
Qed.

Lemma split_lines_lf_end a :
  split_lines (a ++ LF) = (split_lines a ++ [""])%list.
Proof. exact (split_lines_app_lf a ""). Qed.

Lemma split_lines_clean s line :
  In line (split_lines s) -> multiline line = false.
Proof.
  revert line. induction s as [|c s IH]; simpl; intros line H.
  - destruct H as [<-|[]]. reflexivity.
  - destruct (Ascii.eqb c (ascii_of_nat 10)) eqn:Ec.
    + destruct H as [<-|H]; [reflexivity|apply IH, H].
    + destruct (split_lines_cons s) as (l & ls & E). rewrite E in *.
      destruct H as [<-|H].
      * simpl. rewrite Ec. apply IH. left. reflexivity.
      * apply IH. right. exact H.
Qed.

End SplitJoin.

(** ** The fallback extractor *)

Section Fallback.

Variable self : Extract.
Import Py.

Lemma map_id_in {A : Type} (f : A -> A) (l : list A) :
  (forall x, In x l -> f x = x) -> map f l = l.
Proof.
  induction l as [|x l IH]; intros H; simpl; [reflexivity|].
  rewrite (H x) by (left; reflexivity). f_equal.
  apply IH. intros y Hy. apply H. right. exact Hy.
Qed.

(** X1.  The pattern of the fallback, [^#+ ], matches a line exactly
    when the line is one or more [#] followed by a space and anything. *)
Theorem heading_pattern line :
  hashes_then_space line = true <->
  exists k rest, line = repeat "#" (S k) ++ " " ++ rest.
Proof.
  split.
  - induction line as [|c r IH]; simpl; [discriminate|].
    destruct (Ascii.eqb c "#") eqn:Ec; [|discriminate].
    apply Ascii.eqb_eq in Ec. subst c.
    destruct r as [|d r']; [discriminate|]. intros H.
    destruct (Ascii.eqb d " ") eqn:Ed.
    + apply Ascii.eqb_eq in Ed. subst d. exists 0, r'. reflexivity.
    + simpl in H. destruct (IH H) as (k & rest & E).
      exists (S k), rest. rewrite E. reflexivity.
  - intros (k & rest & ->). induction k as [|k IH]; [reflexivity|].
    change (repeat "#" (S (S k)) ++ " " ++ rest)
      with (String "#" (repeat "#" (S k) ++ " " ++ rest)).
    change (repeat "#" (S k) ++ " " ++ rest)
      with (String "#" (repeat "#" k ++ " " ++ rest)) in *.
    cbn [hashes_then_space]. cbn [hashes_then_space] in IH.
    change (Ascii.eqb "#" "#") with true. cbv iota.
    change (Ascii.eqb "#" " ") with false. cbn [orb].
    exact IH.
Qed.

(** X2.  When section mode is off, or when no line of the text is a
    Markdown heading, the fallback returns the text of the document
    unchanged. *)
Theorem default_verbatim soup :
  sections self = false
  \/ (forall line,
        In line (split_lines (String.concat "" (map get_text soup))) ->
        hashes_then_space line = false) ->
  default self soup = String.concat "" (map get_text soup).
Proof.
  intros H. unfold default.
  rewrite map_id_in; [apply join_split_lines|].
  intros line Hl. destruct H as [-> | H]; [reflexivity|].
  rewrite (H line Hl), andb_false_r. reflexivity.
Qed.

End Fallback.

(** ** The pre-pass over script and style *)

Section Decompose.

Lemma forallb_flat_map {A B : Type} (f : B -> bool) (g : A -> list B) l :
  forallb f (flat_map g l) = forallb (fun x => forallb f (g x)) l.
Proof.
  induction l as [|x l IH]; simpl; [reflexivity|].
  rewrite forallb_app, IH. reflexivity.
Qed.

Lemma decompose_clean n : forallb clean (decompose n) = true.
Proof.
  induction n as [s|nm c a cs IH] using PageElement_tree_ind.
  - reflexivity.
  - unfold decompose; fold decompose.
    destruct (name_in (Tag nm c a cs) ["script"; "style"]) eqn:E;
      [reflexivity|].
    cbn [forallb clean].
    change (name_in (Tag nm c a (flat_map decompose cs)) ["script"; "style"])
      with (name_in (Tag nm c a cs) ["script"; "style"]).
    rewrite E, forallb_flat_map. cbn [negb andb]. rewrite andb_true_r.
    apply forallb_forall. intros x Hx.
    rewrite Forall_forall in IH. apply IH, Hx.
Qed.

Lemma clean_subtree n :
  clean n = true ->
  forall up d, In d (subtree up n) ->
               name_in (snd d) ["script"; "style"] = false.
Proof.
  induction n as [s|nm c a cs IH] using PageElement_tree_ind;
    intros Hc up d Hd.
  - destruct Hd as [<-|[]]. reflexivity.
  - cbn [clean] in Hc. apply andb_true_iff in Hc. destruct Hc as [Hn Hcs].
    cbn [subtree] in Hd. destruct Hd as [<-|Hd].
    + apply negb_true_iff in Hn. exact Hn.
    + apply in_flat_map in Hd. destruct Hd as (x & Hx & Hd).
      rewrite Forall_forall in IH. rewrite forallb_forall in Hcs.
      exact (IH x Hx (Hcs x Hx) _ _ Hd).
Qed.

(** X3.  After the pre-pass no script or style element is left at any
    depth of the tree: whatever the conversion finds, processes or
    flattens afterwards, it is never one of them. *)
Theorem decompose_all_clean soup up d :
  In d (flat_map (subtree up) (decompose_all soup)) ->
  name_in (snd d) ["script"; "style"] = false.
Proof.
  intros H. apply in_flat_map in H. destruct H as (n & Hn & Hd).
  unfold decompose_all in Hn. apply in_flat_map in Hn.
  destruct Hn as (m & _ & Hn).
  pose proof (decompose_clean m) as Hc. rewrite forallb_forall in Hc.
  exact (clean_subtree n (Hc n Hn) up d Hd).
Qed.

Lemma decompose_all_clean_witness :
  let soup :=
    [element "body" [element "script" [NavigableString "x()"];
                     element "p" [element "style" []; NavigableString "t"]]] in
  decompose_all soup = [element "body" [element "p" [NavigableString "t"]]]
  /\ name_in (element "p" [NavigableString "t"]) ["script"; "style"] = false.
Proof.
  intros soup. split; [reflexivity|].
  apply (decompose_all_clean soup root
           (("body", ["[document]"]), element "p" [NavigableString "t"])).
  vm_compute. right. left. reflexivity.
Defined.

Lemma decompose_id n : clean n = true -> decompose n = [n].
Proof.
  induction n as [s|nm c a cs IH] using PageElement_tree_ind; intros H.
  - reflexivity.
  - cbn [clean] in H. apply andb_true_iff in H. destruct H as [Hn Hcs].
    apply negb_true_iff in Hn. unfold decompose; fold decompose.
    rewrite Hn. do 2 f_equal.
    rewrite Forall_forall in IH. rewrite forallb_forall in Hcs.
    clear Hn. induction cs as [|x cs IHcs]; [reflexivity|]. simpl.
    rewrite (IH x) by (try apply Hcs; left; reflexivity).
    simpl. f_equal. apply IHcs.
    + intros y Hy. apply IH. right. exact Hy.
    + intros y Hy. apply Hcs. right. exact Hy.
Qed.

Lemma decompose_all_id soup :
  forallb clean soup = true -> decompose_all soup = soup.
Proof.
  unfold decompose_all. induction soup as [|x soup IH]; [reflexivity|].
  simpl. intros H. apply andb_true_iff in H. destruct H as [Hx Hs].
  rewrite (decompose_id x Hx), (IH Hs). reflexivity.
Qed.

Lemma decompose_all_twice soup :
  decompose_all (decompose_all soup) = decompose_all soup.
Proof.
  apply decompose_all_id. unfold decompose_all.
  rewrite forallb_flat_map. apply forallb_forall.
  intros x _. apply decompose_clean.
Qed.

(** X4.  The pre-pass changes nothing in a tree without script and style
    elements, and running it a second time changes nothing any more. *)
Theorem decompose_all_idempotent soup :
  (forallb clean soup = true -> decompose_all soup = soup)
  /\ decompose_all (decompose_all soup) = decompose_all soup.
Proof. split; [apply decompose_all_id|apply decompose_all_twice]. Qed.

End Decompose.

Section DecomposeExamples.

Lemma decompose_all_idempotent_witness :
  let soup := [element "body" [element "p" [NavigableString "t"]]] in
  forallb clean soup = true /\ decompose_all soup = soup.
Proof.
  intros soup. split; [reflexivity|].
  apply (proj1 (decompose_all_idempotent soup)). reflexivity.
Defined.

Lemma default_verbatim_witness :
  let self := __init__ false false in
  let soup := [NavigableString ("# a" ++ Py.LF ++ "b")] in
  (sections self = false
   \/ forall line,
       In line (Py.split_lines (String.concat "" (map get_text soup))) ->
       Py.hashes_then_space line = false)
  /\ default self soup = "# a" ++ Py.LF ++ "b".
Proof.
  intros self soup. split; [left; reflexivity|].
  apply (default_verbatim self soup). left. reflexivity.
Defined.

End DecomposeExamples.

(** ** When the fallback is used *)

Section FallbackTrigger.

Variable self : Extract.
Import Py.

Lemma filter_none {A : Type} (f : A -> bool) (l : list A) :
  (forall x, In x l -> f x = false) -> filter f l = [].
Proof.
  induction l as [|x l IH]; intros H; simpl; [reflexivity|].
  rewrite (H x) by (left; reflexivity).
  apply IH. intros y Hy. apply H. right. exact Hy.
Qed.

Lemma existsb_false_In {A : Type} (f : A -> bool) (l : list A) :
  existsb f l = false -> forall x, In x l -> f x = false.
Proof.
  intros H x Hx. destruct (f x) eqn:E; [|reflexivity].
  assert (existsb f l = true) by (apply existsb_exists; eauto).
  congruence.
Qed.

Lemma selected_spec soup :
  selected soup
  = match article_of soup with
    | Some scope => filter (has_below "p") (elements_tagged scope soup)
    | None => elements_tagged "body" soup
    end.
Proof.
  unfold selected. destruct (article_of soup) as [scope|].
  - rewrite soup_find_all_tagged. apply filter_ext.
    intros d. cbn [is_some negb orb]. apply find_below.
  - rewrite soup_find_all_tagged. apply filter_all. reflexivity.
Qed.

Lemma call_fallback html :
  selected (decompose_all html) = [] ->
  __call__ self html = Ok (default self (decompose_all html)).
Proof. intros H. unfold __call__. rewrite H. reflexivity. Qed.

(** X5.  A document that, after the pre-pass, has no article, no main
    and no body element is converted by the fallback: the result is
    its flat text, whatever else the document holds. *)
Theorem call_without_scope html :
  let soup := decompose_all html in
  has_element "article" soup = false ->
  has_element "main" soup = false ->
  has_element "body" soup = false ->
  __call__ self html = Ok (default self soup).
Proof.
  intros soup Ha Hm Hb. apply call_fallback. fold soup.
  rewrite selected_spec, article_of_spec, Ha, Hm.
  apply filter_none. apply existsb_false_In. exact Hb.
Qed.

(** X6.  When the document has an article element but no article
    element has a [<p>] element below it, nothing is selected, and the
    fallback converts the whole document, its body included; the
    metadata is not looked at. *)
Theorem call_article_without_paragraph html :
  let soup := decompose_all html in
  has_element "article" soup = true ->
  (forall d, In d (elements_tagged "article" soup) ->
             has_below "p" d = false) ->
  __call__ self html = Ok (default self soup).
Proof.
  intros soup Ha Hp. apply call_fallback. fold soup.
  rewrite selected_spec, article_of_spec, Ha.
  apply filter_none. exact Hp.
Qed.

End FallbackTrigger.

Section FallbackTriggerExamples.

Import Py.

Lemma call_without_scope_witness :
  let self := __init__ false true in
  let html := [element "p" [NavigableString "# Title"]] in
  has_element "article" (decompose_all html) = false /\
  has_element "main" (decompose_all html) = false /\
  has_element "body" (decompose_all html) = false /\
  __call__ self html = Ok (FF ++ "# Title").
Proof.
  intros self html. repeat (split; [reflexivity|]).
  rewrite (call_without_scope self html eq_refl eq_refl eq_refl).
  vm_compute. reflexivity.
Defined.

(** [<html><head><meta name="description"></head><body><p>kept</p>
     <article><h1>Title</h1></article></body></html>] *)
Lemma call_article_without_paragraph_witness :
  let self := __init__ false false in
  let html :=
    [element "html"
       [element "head" [Tag "meta" None [("name", "description")] []];
        element "body"
          [element "p" [NavigableString "kept"];
           element "article" [element "h1" [NavigableString "Title"]]]]] in
  has_element "article" (decompose_all html) = true /\
  (forall d, In d (elements_tagged "article" (decompose_all html)) ->
             has_below "p" d = false) /\
  __call__ self html = Ok "keptTitle".
Proof.
  intros self html.
  assert (H : forall d, In d (elements_tagged "article" (decompose_all html))
                        -> has_below "p" d = false).
  { intros d Hd. vm_compute in Hd. destruct Hd as [<-|[]]. reflexivity. }
  split; [reflexivity|]. split; [exact H|].
  rewrite (call_article_without_paragraph self html eq_refl H).
  vm_compute. reflexivity.
Defined.

End FallbackTriggerExamples.

(** ** The metadata list *)

Section MetadataList.

Variable self : Extract.
Import Py.

Ltac ends_with_separator :=
  lazymatch goal with
  | |- [] = [] \/ _ => left; reflexivity
  | |- [?a; _] = [] \/ _ =>
      right; exists [a]; split; [reflexivity|simpl; lia]
  | |- [?a; ?b; _] = [] \/ _ =>
      right; exists [a; b]; split; [reflexivity|simpl; lia]
  end.

(** X7.  Whenever [metadata] returns, its list is empty or ends with
    the separator, the section break in section mode and two newlines
    otherwise, after one or two entries: the separator stands once, and
    never alone. *)
Theorem metadata_separator soup m :
  metadata self soup = Ok m ->
  m = []
  \/ exists entries,
      m = (entries ++ [if sections self then FF else (LF ++ LF)%string])%list
      /\ 1 <= List.length entries <= 2.
Proof.
  unfold metadata.
  destruct (soup_find is_title soup) as [[ut t]|];
    [destruct (truthy (get_text t))|];
    (destruct (soup_find is_description soup) as [[ud d]|];
     [destruct (get d "content") as [content|];
      [destruct (truthy content)|discriminate]|]);
    intros [= <-]; cbn [app]; ends_with_separator.
Qed.

End MetadataList.

Section MetadataListExamples.

Import Py.

Lemma metadata_separator_witness :
  let self := __init__ false true in
  let soup := decompose_all described_document in
  metadata self soup = Ok ["**T**"; LF ++ "*D*"; FF] /\
  (["**T**"; LF ++ "*D*"; FF] = []
   \/ exists entries,
       ["**T**"; LF ++ "*D*"; FF] = (entries ++ [FF])%list
       /\ 1 <= List.length entries <= 2).
Proof.
  intros self soup. split; [reflexivity|].
  exact (metadata_separator self soup _ eq_refl).
Defined.

End MetadataListExamples.

(** ** Nodes that give nothing *)

Section Nothing.

Variable self : Extract.
Import Py.

Lemma append_nil_r (s : string) : s ++ "" = s.
Proof. induction s as [|c s IH]; simpl; [reflexivity|]. now rewrite IH. Qed.

(** X8.  An aside element is converted into the empty string in every
    mode, and so are header and footer elements outside article mode:
    nothing below them is looked at. *)
Theorem process_skipped up node article :
  name_in node ["aside"] = true
  \/ (article = false /\ name_in node ["header"; "footer"] = true) ->
  process self up node article = "".
Proof.
  intros H. rewrite process_unfold.
  destruct H as [H|[-> H]]; apply name_in_Tag in H;
    destruct H as (nm & c & a & cs & -> & H); simpl in H.
  - destruct H as [<-|[]]. destruct article; reflexivity.
  - destruct H as [<-|[<-|[]]]; reflexivity.
Qed.

(** X9.  A string that is processed as a node of its own, the child of
    a container, gives its text without the white space at both ends
    outside article mode, and nothing in article mode. *)
Theorem process_string up s article :
  process self up (NavigableString s) article
  = if article then "" else strip s.
Proof.
  rewrite process_unfold. unfold process_body. cbn [isheader name_in].
  cbv iota.
  change (iscontainer (NavigableString s) (children (NavigableString s)))
    with false.
  change (page (NavigableString s)) with false. cbv iota. cbn [andb].
  unfold text, inline.
  change (inline_items (NavigableString s)) with [NavigableString s].
  cbn [map join String.concat]. unfold piece.
  change (named (NavigableString s)) with false. cbv iota.
  change (get_text (NavigableString s)) with s.
  cbn [name_in andb].
  assert (E : (if truthy (strip s) then s else s) = s)
    by (destruct (truthy (strip s)); reflexivity).
  rewrite E. destruct article; reflexivity.
Qed.

(** X10.  In article mode a node that goes to the inline-text rule and
    whose tag is neither in the allow-set nor a heading gives no text:
    the result is empty, but for the section break of a page node. *)
Theorem process_not_allowed up node :
  structural node true = false ->
  iscontainer node (children node) = false ->
  allowed node = false ->
  process self up node true = if page node && sections self then FF else "".
Proof.
  intros Hs Hc Ha. rewrite (process_inline self up node true Hs Hc).
  cbv zeta. unfold text. rewrite articletext_cases, Ha.
  cbn [andb]. rewrite andb_false_r. reflexivity.
Qed.

(** X11.  In article mode a heading that is, or lies below, an [<a>]
    element and whose parent is not a table cell gives the empty
    string: headings of navigation links are dropped whole, marks
    included. *)
Theorem process_heading_in_link up node :
  isheader node = true ->
  link_chain up node = true ->
  in_cell up = false ->
  process self up node true = "".
Proof.
  intros Hh Hl Hc. rewrite process_header by exact Hh.
  destruct (isheader_level node Hh) as (k & Hk & _).
  assert (Ha : allowed node = true)
    by (unfold allowed; rewrite Hh; apply orb_true_r).
  unfold header. rewrite Hk. cbv zeta. unfold text.
  rewrite articletext_cases, Ha.
  rewrite (islink_chain up node (allowed_named _ Ha) Hl Hc).
  cbn [andb negb]. rewrite andb_false_r. reflexivity.
Qed.

End Nothing.

Section NothingExamples.

Import Py.

Lemma process_skipped_witness :
  let self := __init__ false false in
  let node := element "footer" [element "p" [NavigableString "imprint"]] in
  (name_in node ["aside"] = true
   \/ (false = false /\ name_in node ["header"; "footer"] = true))
  /\ process self root node false = "".
Proof.
  intros self node.
  assert (H : name_in node ["aside"] = true
              \/ (false = false /\ name_in node ["header"; "footer"] = true))
    by (right; split; reflexivity).
  split; [exact H|]. exact (process_skipped self root node false H).
Defined.

Lemma process_not_allowed_witness :
  let self := __init__ false true in
  let node := Tag "span" (Some ["page"]) [] [NavigableString "menu"] in
  structural node true = false /\
  iscontainer node (children node) = false /\
  allowed node = false /\
  process self root node true = FF.
Proof.
  intros self node. repeat (split; [reflexivity|]).
  rewrite (process_not_allowed self root node eq_refl eq_refl eq_refl).
  reflexivity.
Defined.

Lemma process_heading_in_link_witness :
  let self := __init__ false false in
  let up := ("a", ["nav"; "article"; "body"; "html"; "[document]"]) in
  let node := element "h2" [NavigableString "Home"] in
  isheader node = true /\ link_chain up node = true /\ in_cell up = false /\
  process self up node true = "".
Proof.
  intros self up node. repeat (split; [reflexivity|]).
  exact (process_heading_in_link self up node eq_refl eq_refl eq_refl).
Defined.

End NothingExamples.

(** ** Paragraphs in article mode *)

Section Paragraphs.

Variable self : Extract.
Import Py.

Lemma truthy_app_String a c b : truthy (a ++ String c b) = true.
Proof. destruct a; reflexivity. Qed.

(** X12.  In article mode a [<p>] element that goes to the inline-text
    rule, is not a link node and has inline text is converted into that
    text with every non-breaking space before a newline turned into a
    newline, trimmed, and closed by one newline, or by two when
    paragraphs are asked for. *)
Theorem process_paragraph up c a cs :
  let node := Tag "p" c a cs in
  iscontainer node (children node) = false ->
  islink up node = false ->
  inline node <> "" ->
  process self up node true
  = let text := strip (replace_nbsp_lf (inline node)) ++ LF
                ++ (if paragraphs self then LF else "") in
    if page node && sections self then text ++ FF else text.
Proof.
  intros node Hc Hl Hi.
  rewrite (process_inline self up node true eq_refl Hc). cbv zeta.
  assert (E : text self up node true
              = strip (replace_nbsp_lf (inline node)) ++ LF
                ++ (if paragraphs self then LF else "")).
  { unfold text. rewrite articletext_cases.
    change (allowed node) with true. rewrite Hl. cbn [andb negb].
    unfold kept. apply truthy_iff in Hi. rewrite Hi.
    change (name_in node ["p"]) with true. cbv iota zeta.
    change (named node) with (truthy "p"). cbn [truthy andb].
    set (t := strip (replace_nbsp_lf (inline node))).
    assert (T1 : truthy (t ++ LF ++ LF) = true)
      by apply (truthy_app_String t (ascii_of_nat 10) LF).
    assert (T2 : truthy (t ++ LF) = true)
      by apply (truthy_app_String t (ascii_of_nat 10) "").
    destruct (paragraphs self); [rewrite T1|rewrite T2]; reflexivity. }
  rewrite E. reflexivity.
Qed.

End Paragraphs.

Section ParagraphExamples.

Import Py.

Lemma process_paragraph_witness :
  let self := __init__ true false in
  let node := element "p" [NavigableString (" One" ++ NBSP ++ LF ++ "two ")] in
  iscontainer node (children node) = false /\
  islink ("article", ["body"; "html"; "[document]"]) node = false /\
  inline node <> "" /\
  process self ("article", ["body"; "html"; "[document]"]) node true
  = "One" ++ LF ++ LF ++ "two" ++ LF ++ LF.
Proof.
  intros self node.
  assert (H : inline node <> "") by (vm_compute; discriminate).
  split; [reflexivity|]. split; [reflexivity|]. split; [exact H|].
  etransitivity;
    [exact (process_paragraph
              self ("article", ["body"; "html"; "[document]"])
              None [] [NavigableString (" One" ++ NBSP ++ LF ++ "two ")]
              eq_refl eq_refl H)|].
  vm_compute. reflexivity.
Defined.

End ParagraphExamples.

(** ** The class attribute *)

Section ClassAttribute.

Variable self : Extract.
Import Py.

Lemma piece_class nm c a cs x :
  piece (Tag nm None a cs) x = piece (Tag nm c a cs) x.
Proof. unfold piece. destruct (named x); reflexivity. Qed.

Lemma inline_class nm c a cs :
  inline (Tag nm None a cs) = inline (Tag nm c a cs).
Proof.
  unfold inline, inline_items.
  change (children (Tag nm None a cs)) with (children (Tag nm c a cs)).
  destruct (children (Tag nm c a cs)) as [[|x l]|].
  - cbn [map]. unfold piece.
    change (named (Tag nm None a cs)) with (named (Tag nm c a cs)).
    destruct (named (Tag nm c a cs)); reflexivity.
  - f_equal. apply map_ext. intros y. apply piece_class.
  - cbn [map]. unfold piece.
    change (named (Tag nm None a cs)) with (named (Tag nm c a cs)).
    destruct (named (Tag nm c a cs)); reflexivity.
Qed.

Lemma text_class up nm c a cs article :
  text self up (Tag nm None a cs) article
  = text self up (Tag nm c a cs) article.
Proof. unfold text. rewrite (inline_class nm c a cs). reflexivity. Qed.

Lemma header_class up nm c a cs article :
  header self up (Tag nm None a cs) article
  = header self up (Tag nm c a cs) article.
Proof. unfold header. rewrite (text_class up nm c a cs). reflexivity. Qed.

Lemma process_body_class rec up nm c a cs article :
  process_body self rec up (Tag nm c a cs) article
  = process_body self rec up (Tag nm None a cs) article
    ++ (if negb (structural (Tag nm c a cs) article)
           && page (Tag nm c a cs) && sections self
        then FF else "").
Proof.
  unfold process_body, structural.
  rewrite (header_class up nm c a cs), (text_class up nm c a cs).
  change (isheader (Tag nm None a cs)) with (isheader (Tag nm c a cs)).
  change (name_in (Tag nm None a cs)) with (name_in (Tag nm c a cs)).
  change (block self (Tag nm None a cs)) with (block self (Tag nm c a cs)).
  change (code self (Tag nm None a cs)) with (code self (Tag nm c a cs)).
  change (items rec up (Tag nm None a cs) article)
    with (items rec up (Tag nm c a cs) article).
  change (table rec up (Tag nm None a cs) article)
    with (table rec up (Tag nm c a cs) article).
  destruct (isheader (Tag nm c a cs));
    [cbn [orb negb andb]; symmetry; apply append_nil_r|].
  destruct (name_in (Tag nm c a cs) ["blockquote"; "q"]);
    [cbn [orb negb andb]; symmetry; apply append_nil_r|].
  destruct (name_in (Tag nm c a cs) ["ul"; "ol"]);
    [cbn [orb negb andb]; symmetry; apply append_nil_r|].
  destruct (name_in (Tag nm c a cs) ["code"; "pre"]);
    [cbn [orb negb andb]; symmetry; apply append_nil_r|].
  destruct (name_in (Tag nm c a cs) ["table"]);
    [cbn [orb negb andb]; symmetry; apply append_nil_r|].
  destruct (name_in (Tag nm c a cs) _);
    [cbn [orb negb andb]; symmetry; apply append_nil_r|].
  cbn [orb negb andb]. cbv zeta.
  change (children (Tag nm None a cs)) with (children (Tag nm c a cs)).
  change (iscontainer (Tag nm None a cs)) with (iscontainer (Tag nm c a cs)).
  change (inside (Tag nm None a cs) up) with (inside (Tag nm c a cs) up).
  change (page (Tag nm None a cs)) with (truthy nm && false).
  rewrite andb_false_r. cbn [andb].
  destruct (page (Tag nm c a cs) && sections self);
    [reflexivity|symmetry; apply append_nil_r].
Qed.

(** X13.  The class attribute of a node changes its result in one way
    only: the section break is put after the result when the node is
    not taken by a structural rule, carries the class token [page] and
    section mode is on.  In every other case, and always when section
    mode is off, the class of the node is ignored. *)
Theorem process_class up node article :
  process self up node article
  = process self up (unclassed node) article
    ++ (if negb (structural node article) && page node && sections self
        then FF else "").
Proof.
  destruct node as [s|nm c a cs].
  - cbn [unclassed]. change (page (NavigableString s)) with false.
    rewrite andb_false_r. symmetry. apply append_nil_r.
  - cbn [unclassed].
    rewrite (process_unfold self up (Tag nm c a cs)),
            (process_unfold self up (Tag nm None a cs)).
    apply process_body_class.
Qed.

End ClassAttribute.

(** ** Tables and lists at the edges *)

Section Edges.

Variable self : Extract.
Import Py.

(** X14.  In a table of more than one row, the separator line has as
    many [|---] cells as the first row has cells, also when other rows
    have more or fewer. *)
Theorem table_first_row_width up node article first rest :
  name_in node ["table"] = true ->
  find_all (fun t => name_in t ["tr"]) up node = first :: rest ->
  rest <> [] ->
  process self up node article
  = join LF (row_line (process self) article first
               :: separator (List.length (columns first))
               :: map (row_line (process self) article) rest).
Proof.
  intros H E Hr. rewrite process_table by exact H.
  apply table_many; assumption.
Qed.

(** X15.  A table without a [<tr>] element below it is converted into
    the empty string. *)
Theorem table_without_rows up node article :
  name_in node ["table"] = true ->
  find_all (fun t => name_in t ["tr"]) up node = [] ->
  process self up node article = "".
Proof.
  intros H E. rewrite process_table by exact H.
  unfold table. rewrite E. reflexivity.
Qed.

(** X16.  A list in which every [<li>] element is converted into the
    empty string, and so a list without [<li>] elements, is converted
    into the empty string. *)
Theorem list_without_text up node article :
  name_in node ["ul"; "ol"] = true ->
  (forall d, In d (find_all (fun t => name_in t ["li"]) up node) ->
             process self (fst d) (snd d) article = "") ->
  process self up node article = "".
Proof.
  intros H Hall. rewrite process_items by exact H. unfold items.
  rewrite (flat_map_ext_in _ (fun _ => [])).
  - induction (enumerate _) as [|e l IH]; [reflexivity|exact IH].
  - intros [i [u d]] Hin. apply enumerate_In in Hin.
    pose proof (Hall (u, d) Hin) as E. cbn [fst snd] in E.
    unfold item. rewrite E. reflexivity.
Qed.

End Edges.

Section EdgeExamples.

Import Py.

(** A table whose first row has one cell and whose second row has two. *)
Lemma table_first_row_width_witness :
  let self := __init__ false false in
  let node :=
    element "table"
      [element "tr" [element "th" [NavigableString "Title"]];
       element "tr" [element "td" [NavigableString "a"];
                     element "td" [NavigableString "b"]]] in
  name_in node ["table"] = true /\
  process self root node false = "|Title|" ++ LF ++ "|---|" ++ LF ++ "|a|b|".
Proof.
  intros self node. split; [reflexivity|].
  assert (Hr : [(("table", ["[document]"]),
                 element "tr" [element "td" [NavigableString "a"];
                               element "td" [NavigableString "b"]])]
               <> []) by discriminate.
  rewrite (table_first_row_width self root node false _ _
             eq_refl eq_refl Hr).
  vm_compute. reflexivity.
Defined.

Lemma table_without_rows_witness :
  let self := __init__ false false in
  let node := element "table" [element "caption" [NavigableString "c"]] in
  name_in node ["table"] = true /\
  find_all (fun t => name_in t ["tr"]) root node = [] /\
  process self root node false = "".
Proof.
  intros self node. split; [reflexivity|]. split; [reflexivity|].
  exact (table_without_rows self root node false eq_refl eq_refl).
Defined.

Lemma list_without_text_witness :
  let self := __init__ false false in
  let node := element "ul" [element "li" []; element "li" []] in
  name_in node ["ul"; "ol"] = true /\
  process self root node false = "".
Proof.
  intros self node. split; [reflexivity|].
  apply (list_without_text self root node false eq_refl).
  intros d Hd. vm_compute in Hd.
  destruct Hd as [<-|[<-|[]]]; reflexivity.
Defined.

End EdgeExamples.

(** ** Quotes and code *)

Section Blocks.

Variable self : Extract.
Import Py.

Lemma process_block up node article :
  name_in node ["blockquote"; "q"] = true ->
  process self up node article = block self node.
Proof.
  intros H. rewrite process_unfold. apply name_in_Tag in H.
  destruct H as (nm & c & a & cs & -> & [<-|[<-|[]]]); reflexivity.
Qed.

Lemma process_code up node article :
  name_in node ["code"; "pre"] = true ->
  process self up node article = code self node.
Proof.
  intros H. rewrite process_unfold. apply name_in_Tag in H.
  destruct H as (nm & c & a & cs & -> & [<-|[<-|[]]]); reflexivity.
Qed.

(** X17.  The lines of a converted blockquote or q element are the
    lines of its trimmed text, each after [> ], none left out and none
    added, and then one empty line, or two when paragraphs are asked
    for. *)
Theorem blockquote_lines up node article :
  name_in node ["blockquote"; "q"] = true ->
  split_lines (process self up node article)
  = (map (fun x => ("> " ++ x)%string) (split_lines (strip (get_text node)))
     ++ (if paragraphs self then [""; ""] else [""]))%list.
Proof.
  intros H. rewrite process_block by exact H. unfold block.
  set (quoted := map (fun x => "> " ++ x)
                     (split_lines (strip (get_text node)))).
  assert (Hq : split_lines (join LF quoted) = quoted).
  { apply split_lines_join.
    - unfold quoted.
      destruct (split_lines_cons (strip (get_text node))) as (l & ls & ->).
      discriminate.
    - intros t Ht. unfold quoted in Ht. apply in_map_iff in Ht.
      destruct Ht as (x & <- & Hx).
      rewrite multiline_app, (split_lines_clean _ _ Hx). reflexivity. }
  destruct (paragraphs self).
  - rewrite split_lines_app_lf, Hq. reflexivity.
  - rewrite split_lines_lf_end, Hq. reflexivity.
Qed.

(** X18.  The lines of a converted code or pre element are the opening
    fence, the lines of its trimmed text unchanged, the closing fence,
    and then one empty line, or two when paragraphs are asked for. *)
Theorem code_lines up node article :
  name_in node ["code"; "pre"] = true ->
  split_lines (process self up node article)
  = ("```" :: split_lines (strip (get_text node))
     ++ ["```"] ++ (if paragraphs self then [""; ""] else [""]))%list.
Proof.
  intros H. rewrite process_code by exact H. unfold code.
  set (t := strip (get_text node)).
  destruct (paragraphs self).
  - replace (("```" ++ LF ++ t ++ LF ++ "```") ++ LF ++ LF)
      with ("```" ++ LF ++ t ++ LF ++ "```" ++ LF ++ LF)
      by (rewrite !append_assoc; reflexivity).
    rewrite !split_lines_app_lf. reflexivity.
  - replace (("```" ++ LF ++ t ++ LF ++ "```") ++ LF)
      with ("```" ++ LF ++ t ++ LF ++ "```" ++ LF)
      by (rewrite !append_assoc; reflexivity).
    rewrite !split_lines_app_lf. reflexivity.
Qed.

End Blocks.

Section BlockExamples.

Import Py.

Lemma blockquote_lines_witness :
  let self := __init__ false false in
  let node := element "blockquote" [NavigableString ("a" ++ LF ++ "b ")] in
  name_in node ["blockquote"; "q"] = true /\
  split_lines (process self root node false) = ["> a"; "> b"; ""].
Proof.
  intros self node. split; [reflexivity|].
  rewrite (blockquote_lines self root node false eq_refl). reflexivity.
Defined.

Lemma code_lines_witness :
  let self := __init__ true false in
  let node := element "pre" [NavigableString ("x = 1" ++ LF ++ "y = 2")] in
  name_in node ["code"; "pre"] = true /\
  split_lines (process self root node false)
  = ["```"; "x = 1"; "y = 2"; "```"; ""; ""].
Proof.
  intros self node. split; [reflexivity|].
  rewrite (code_lines self root node false eq_refl). reflexivity.
Defined.

End BlockExamples.

(** ** The inline text outside article mode *)

Section InlineText.

Variable self : Extract.
Import Py.

(** X19.  Outside article mode the inline-text rule returns the joined
    pieces of an element as they are: white space at the ends, such as
    the space after a bold, italic or link piece, is kept.  Only a
    string processed on its own is trimmed. *)
Theorem text_untrimmed up node :
  named node = true ->
  text self up node false = inline node.
Proof.
  intros H. unfold text. rewrite H. cbn [andb].
  destruct (inline node); reflexivity.
Qed.

(** X20.  Outside section mode a heading [h1] to [h6] with text is
    converted into a newline, as many [#] as the digit of its tag says,
    a space and the inline text without leading white space; a heading
    whose text is blank gives the empty string. *)
Theorem process_heading_plain up node article :
  sections self = false ->
  isheader node = true ->
  exists k,
    level node = Some k /\
    name node = Some (String "h" (str_of_nat k)) /\
    process self up node article =
      let t := text self up node article in
      if truthy (strip t) then LF ++ repeat "#" k ++ " " ++ lstrip t
      else "".
Proof.
  intros Hs Hh. rewrite process_header by exact Hh.
  unfold header. rewrite Hs. apply name_in_Tag in Hh.
  destruct Hh as (nm & c & a & cs & -> & H). simpl in H.
  destruct H as [<-|[<-|[<-|[<-|[<-|[<-|[]]]]]]];
    [exists 1|exists 2|exists 3|exists 4|exists 5|exists 6];
    (split; [reflexivity|]); (split; [reflexivity|]);
    cbn [level String.get int_of_char]; cbv zeta;
    match goal with
    | |- context [truthy (strip ?t)] => destruct (truthy (strip t))
    end; reflexivity.
Qed.

End InlineText.

Section InlineTextExamples.

Import Py.

Lemma text_untrimmed_witness :
  let self := __init__ false false in
  let node := element "p" [NavigableString " see ";
                           element "b" [NavigableString "this"]] in
  named node = true /\ text self root node false = " see **this** ".
Proof.
  intros self node. split; [reflexivity|].
  rewrite (text_untrimmed self root node eq_refl). reflexivity.
Defined.

Lemma process_heading_plain_witness :
  let self := __init__ false false in
  let node := element "h3" [NavigableString "  Usage"] in
  sections self = false /\ isheader node = true /\
  process self root node false = LF ++ "### Usage".
Proof.
  intros self node. split; [reflexivity|]. split; [reflexivity|].
  destruct (process_heading_plain self root node false eq_refl eq_refl)
    as (k & Hk & _ & Hp).
  rewrite Hp. injection Hk as <-. reflexivity.
Defined.

End InlineTextExamples.

(** ** The whole pass *)

Section WholePass.

Variable self : Extract.
Import Py.

(** X22.  When some node is selected, the first title, if any, has no
    text and the first description meta tag, if any, has an empty
    content, the result has no preamble and no separator: it is the
    converted nodes joined with newlines. *)
Theorem call_without_metadata html :
  let soup := decompose_all html in
  (forall u t, soup_find is_title soup = Some (u, t) -> get_text t = "") ->
  (forall u d, soup_find is_description soup = Some (u, d) ->
               get d "content" = Some "") ->
  selected soup <> [] ->
  __call__ self html
  = Ok (join LF (map (fun d => process self (fst d) (snd d)
                                       (is_some (article_of soup)))
                     (selected soup))).
Proof.
  intros soup Ht Hd Hs. unfold __call__. fold soup.
  destruct (selected soup) as [|x l] eqn:E; [contradiction|].
  assert (Hm : metadata self soup = Ok []).
  { unfold metadata.
    destruct (soup_find is_title soup) as [[u t]|] eqn:Et;
      [rewrite (Ht u t eq_refl)|];
      (destruct (soup_find is_description soup) as [[ud d]|] eqn:Ed;
       [rewrite (Hd ud d eq_refl)|]); reflexivity. }
  cbn [map]. rewrite Hm. reflexivity.
Qed.

End WholePass.

Section WholePassExamples.

Import Py.

(** [<html><head><title></title><meta name="description" content="">
     </head><body><p>one</p><p>two</p></body></html>] *)
Lemma call_without_metadata_witness :
  let self := __init__ false true in
  let html :=
    [element "html"
       [element "head"
          [element "title" [];
           Tag "meta" None [("name", "description"); ("content", "")] []];
        element "body" [element "p" [NavigableString "one"];
                        element "p" [NavigableString "two"]]]] in
  selected (decompose_all html) <> [] /\
  __call__ self html = Ok ("one" ++ LF ++ "two").
Proof.
  intros self html.
  assert (Hs : selected (decompose_all html) <> [])
    by (vm_compute; discriminate).
  split; [exact Hs|].
  etransitivity; [apply (call_without_metadata self html)|].
  - intros u t H. vm_compute in H. injection H as <- <-. reflexivity.
  - intros u d H. vm_compute in H. injection H as <- <-. reflexivity.
  - exact Hs.
  - vm_compute. reflexivity.
Defined.

End WholePassExamples.

(** ** Links without a target *)

Section Links.

Variable self : Extract.
Import Py.

Lemma join_empty_cons x l : join "" (x :: l) = x ++ join "" l.
Proof. destruct l; [symmetry; apply append_nil_r|reflexivity]. Qed.

Lemma join_empty_app l1 l2 :
  join "" (l1 ++ l2) = join "" l1 ++ join "" l2.
Proof.
  induction l1 as [|x l1 IH]; [reflexivity|].
  rewrite <- app_comm_cons, !join_empty_cons, IH, append_assoc.
  reflexivity.
Qed.

Lemma truthy_replace s :
  truthy s = true -> truthy (replace_nbsp_lf s) = true.
Proof.
  destruct s as [|a [|b r]]; [discriminate|reflexivity|]. intros _.
  cbn [replace_nbsp_lf].
  destruct (Ascii.eqb a (ascii_of_nat 160) && Ascii.eqb b (ascii_of_nat 10));
    reflexivity.
Qed.

Lemma truthy_kept node t : truthy t = true -> truthy (kept self node t) = true.
Proof.
  intros H. unfold kept. rewrite H.
  destruct (name_in node ["p"]); [|apply truthy_replace, H].
  destruct (paragraphs self);
    apply (truthy_app_String (strip (replace_nbsp_lf t)) (ascii_of_nat 10)).
Qed.

(** The piece of an item whose target is an [<a>] element without
    [href]. *)
Lemma piece_link node x c attrs cs :
  (if named x then x else node) = Tag "a" c attrs cs ->
  lookup "href" attrs = None ->
  strip (get_text x) <> "" ->
  piece node x = "[" ++ strip (get_text x) ++ "](None) ".
Proof.
  intros Ht Hh Hx. unfold piece. rewrite Ht.
  apply truthy_iff in Hx. rewrite Hx.
  change (name_in (Tag "a" c attrs cs) ["b"; "strong"]) with false.
  change (name_in (Tag "a" c attrs cs) ["i"; "em"]) with false.
  change (name_in (Tag "a" c attrs cs) ["a"]) with true.
  cbn [get]. rewrite Hh. reflexivity.
Qed.

Lemma children_named node l : children node = Some l -> named node = true.
Proof.
  unfold children. destruct (named node); [reflexivity|discriminate].
Qed.

(** The node that the rule flattens has a tag when one of its items has
    an [<a>] element as target. *)
Lemma link_item_named node x c attrs cs before after :
  inline_items node = (before ++ x :: after)%list ->
  (if named x then x else node) = Tag "a" c attrs cs ->
  named node = true.
Proof.
  unfold inline_items. intros Hi Ht.
  destruct (children node) as [[|y l]|] eqn:E;
    try (apply (children_named node _ E)).
  destruct before as [|b before].
  - simpl in Hi. injection Hi as Hx _. subst x.
    destruct (named node) eqn:En; [reflexivity|].
    rewrite Ht in En. discriminate En.
  - injection Hi as _ Hi. destruct before; discriminate Hi.
Qed.

(** C10, as amended.  Take an item of the inline-text rule whose target
    is an [<a>] element without [href]: the element as a child of the
    node that the rule flattens, or a string of the element when the
    rule flattens the element itself.  When the text of the item is not
    blank, its piece is the link form with the text [None] as target,
    and no error is raised.  Outside article mode the rule returns the
    pieces of the items before it, that link form and the pieces of the
    items after it, joined as they are.  In article mode it returns the
    same text as the article filter keeps it when the tag of the node is
    in the allow-set or a heading and the node is not a link node, and
    the empty string otherwise. *)
Theorem text_link_without_href up node x c attrs cs before after :
  inline_items node = (before ++ x :: after)%list ->
  (if named x then x else node) = Tag "a" c attrs cs ->
  lookup "href" attrs = None ->
  strip (get_text x) <> "" ->
  let rendered :=
    join "" (map (piece node) before)
    ++ "[" ++ strip (get_text x) ++ "](None) "
    ++ join "" (map (piece node) after) in
  piece node x = "[" ++ strip (get_text x) ++ "](None) "
  /\ inline node = rendered
  /\ text self up node false = rendered
  /\ text self up node true
     = if allowed node && negb (islink up node)
       then kept self node rendered else "".
Proof.
  intros Hi Ht Hh Hx rendered.
  pose proof (piece_link node x c attrs cs Ht Hh Hx) as Hp.
  pose proof (link_item_named node x c attrs cs before after Hi Ht) as Hn.
  assert (Hr : inline node = rendered).
  { unfold inline. rewrite Hi, map_app, join_empty_app. cbn [map].
    rewrite join_empty_cons, Hp. unfold rendered.
    rewrite !append_assoc. reflexivity. }
  assert (Hty : truthy rendered = true).
  { unfold rendered.
    apply (truthy_app_String (join "" (map (piece node) before)) "["). }
  split; [exact Hp|]. split; [exact Hr|]. split.
  - unfold text. rewrite Hr, Hn, Hty. reflexivity.
  - unfold text. rewrite Hr, Hn, articletext_cases.
    destruct (allowed node && negb (islink up node)); [|reflexivity].
    rewrite (truthy_kept node rendered Hty). reflexivity.
Qed.

End Links.

Section LinkExamples.

Import Py.

Lemma text_link_without_href_witness :
  let self := defaults in
  let a := Tag "a" None [("title", "t")] [NavigableString "test"] in
  let node := element "p" [NavigableString "This is a "; a] in
  inline_items node = ([NavigableString "This is a "] ++ a :: [])%list /\
  (if named a then a else node) = a /\
  lookup "href" [("title", "t")] = None /\
  strip (get_text a) <> "" /\
  text self root node false = "This is a [test](None) ".
Proof.
  intros self a node.
  assert (H : strip (get_text a) <> "") by (vm_compute; discriminate).
  repeat (split; [first [reflexivity|exact H]|]).
  exact (proj1 (proj2 (proj2
           (text_link_without_href self root node a None [("title", "t")]
              [NavigableString "test"] [NavigableString "This is a "] []
              eq_refl eq_refl eq_refl H)))).
Defined.

(** C10 fails as stated.  The element [<a>x</a>] has text and no
    [href]; when the rule flattens it in article mode, below a
    paragraph, it is a link node and the result is empty: the link is
    left out.  And in [<p>see <span><a>x</a></span></p>] the element is
    no item of the rule, which flattens the span to its text, in every
    mode. *)
Lemma link_without_href_counterexample :
  let self := defaults in
  let a := element "a" [NavigableString "x"] in
  let up := ("p", ["article"; "body"; "html"; "[document]"]) in
  get a "href" = None /\ strip (get_text a) <> "" /\
  text self up a true = "" /\
  text self up a false = "[x](None) " /\
  text self root
       (element "p" [NavigableString "see "; element "span" [a]]) false
  = "see x".
Proof. vm_compute. repeat split. discriminate. Qed.

End LinkExamples.
